(** * Whisper transcriber: the command-line script and the desktop worker

    A shallow embedding of [transcribe.py] and of
    [transcriberApp/WhisperTranscriber.py].

    Python [str] values are modelled as [string]; one [ascii] stands for one
    code point below 256.  Calls that leave the process (the file system, the
    clock, the speech model, the Tk variable holding the output folder) are
    read from an environment record, indexed by how many such calls the
    worker has made, so that every definition below is a total, executable
    function. *)

From Stdlib Require Import String Ascii List ZArith Bool Arith Lia.
From Stdlib Require Import Numbers.DecimalString.
Import ListNotations.

Open Scope string_scope.
Open Scope list_scope.

(** ** Python string helpers *)

Module PyStr.

(** [str.isspace] on one code point (the ones below 256 that CPython lists
    in [_Py_ascii_whitespace] plus U+0085 and U+00A0). *)
Definition isspace (c : ascii) : bool :=
  let n := nat_of_ascii c in
  (Nat.leb 9 n && Nat.leb n 13) || (Nat.leb 28 n && Nat.leb n 32)
  || Nat.eqb n 133 || Nat.eqb n 160.

Definition is_empty (s : string) : bool :=
  match s with EmptyString => true | String _ _ => false end.

Fixpoint lstrip (s : string) : string :=
  match s with
  | EmptyString => EmptyString
  | String c r => if isspace c then lstrip r else s
  end.

Fixpoint rstrip (s : string) : string :=
  match s with
  | EmptyString => EmptyString
  | String c r =>
      let r' := rstrip r in
      if isspace c && is_empty r' then EmptyString else String c r'
  end.

(** [s.strip()] *)
Definition strip (s : string) : string := rstrip (lstrip s).

(** Truthiness of a [str]: non-empty. *)
Definition truthy (s : string) : bool := negb (is_empty s).

(** [a or b] on strings. *)
Definition or_else (a b : string) : string := if truthy a then a else b.

Fixpoint all_chars (p : ascii -> bool) (s : string) : bool :=
  match s with
  | EmptyString => true
  | String c r => p c && all_chars p r
  end.

Definition first_char (s : string) : option ascii :=
  match s with EmptyString => None | String c _ => Some c end.

Fixpoint last_char (s : string) : option ascii :=
  match s with
  | EmptyString => None
  | String c EmptyString => Some c
  | String _ r => last_char r
  end.

(** [s.endswith(t)] for a one-character [t]. *)
Definition ends_with (c : ascii) (s : string) : bool :=
  match last_char s with Some d => Ascii.eqb c d | None => false end.

Definition starts_with (c : ascii) (s : string) : bool :=
  match first_char s with Some d => Ascii.eqb c d | None => false end.

(** [str(n)] for a non-negative integer. *)
Definition of_nat (n : nat) : string := NilZero.string_of_uint (Nat.to_uint n).

Definition tab : ascii := ascii_of_nat 9.
Definition newline : ascii := ascii_of_nat 10.
Definition nl : string := String newline EmptyString.

End PyStr.

(** ** The drag-and-drop splitter ([App._split_dnd_paths]) *)

Module Dnd.
Import PyStr.

(** The three loop variables of the source: [out], [buf], [in_brace]. *)
Record scan := { out : list string; buf : string; in_brace : bool }.

Definition scan0 : scan := {| out := []; buf := ""; in_brace := false |}.

(** One turn of [for ch in data]. *)
Definition feed (st : scan) (ch : ascii) : scan :=
  if Ascii.eqb ch "{" then
    {| out := out st; buf := ""; in_brace := true |}
  else if Ascii.eqb ch "}" then
    {| out := out st ++ [buf st]; buf := ""; in_brace := false |}
  else if Ascii.eqb ch " " && negb (in_brace st) then
    if truthy (buf st)
    then {| out := out st ++ [buf st]; buf := ""; in_brace := in_brace st |}
    else st
  else
    {| out := out st; buf := buf st ++ String ch ""; in_brace := in_brace st |}.

Fixpoint scan_all (st : scan) (data : string) : scan :=
  match data with
  | EmptyString => st
  | String ch r => scan_all (feed st ch) r
  end.

(** The [if buf: out.append(...)] after the loop. *)
Definition flush (st : scan) : list string :=
  if truthy (buf st) then out st ++ [buf st] else out st.

(** [[p.strip() for p in out if p.strip()]] *)
Definition trimmed (l : list string) : list string :=
  map strip (filter (fun p => truthy (strip p)) l).

Definition _split_dnd_paths (data : string) : list string :=
  trimmed (flush (scan_all scan0 data)).

(** The splitter as the specification words it: any whitespace outside
    braces separates paths.  Only the separator test differs from [feed]. *)
Definition spec_feed (st : scan) (ch : ascii) : scan :=
  if Ascii.eqb ch "{" then
    {| out := out st; buf := ""; in_brace := true |}
  else if Ascii.eqb ch "}" then
    {| out := out st ++ [buf st]; buf := ""; in_brace := false |}
  else if isspace ch && negb (in_brace st) then
    if truthy (buf st)
    then {| out := out st ++ [buf st]; buf := ""; in_brace := in_brace st |}
    else st
  else
    {| out := out st; buf := buf st ++ String ch ""; in_brace := in_brace st |}.

Fixpoint spec_scan_all (st : scan) (data : string) : scan :=
  match data with
  | EmptyString => st
  | String ch r => spec_scan_all (spec_feed st ch) r
  end.

Definition spec_split_dnd_paths (data : string) : list string :=
  trimmed (flush (spec_scan_all scan0 data)).

(** A well-formed drop: brace groups, bare words each ended by a space,
    spare spaces, and possibly one last bare word. *)
Inductive piece :=
| Group (s : string)   (* {s} *)
| Word (s : string)    (* s followed by one space *)
| Gap.                 (* one space *)

Definition no_brace (c : ascii) : bool :=
  negb (Ascii.eqb c "{") && negb (Ascii.eqb c "}").

Definition word_char (c : ascii) : bool :=
  no_brace c && negb (Ascii.eqb c " ").

Definition wf_piece (p : piece) : bool :=
  match p with
  | Group s => all_chars no_brace s
  | Word s => all_chars word_char s && truthy s
  | Gap => true
  end.

Definition render_piece (p : piece) : string :=
  match p with
  | Group s => "{" ++ s ++ "}"
  | Word s => s ++ " "
  | Gap => " "
  end.

Fixpoint render (ps : list piece) : string :=
  match ps with
  | [] => ""
  | p :: r => render_piece p ++ render r
  end.

Fixpoint contents (ps : list piece) : list string :=
  match ps with
  | [] => []
  | Group s :: r => s :: contents r
  | Word s :: r => s :: contents r
  | Gap :: r => contents r
  end.

End Dnd.

(** ** [os.path]

    The scripts only go through the [os.path] interface, whose meaning
    depends on the platform; the worker and the script are written against
    the interface, and [posixpath] is given as an instance. *)

Class OsPath := {
  basename : string -> string;
  dirname : string -> string;
  splitext : string -> string * string;
  join : string -> string -> string
}.

Module PosixPath.
Import PyStr.

(** [(p[:i], p[i:])] with [i = p.rfind('/') + 1]. *)
Fixpoint split_at_sep (p : string) : string * string :=
  match p with
  | EmptyString => ("", "")
  | String c r =>
      let (h, t) := split_at_sep r in
      if is_empty h
      then if Ascii.eqb c "/" then (String c "", t) else ("", String c t)
      else (String c h, t)
  end.

Fixpoint rstrip_sep (s : string) : string :=
  match s with
  | EmptyString => EmptyString
  | String c r =>
      let r' := rstrip_sep r in
      if Ascii.eqb c "/" && is_empty r' then EmptyString else String c r'
  end.

Definition posix_basename (p : string) : string := snd (split_at_sep p).

Definition posix_dirname (p : string) : string :=
  let head := fst (split_at_sep p) in
  if truthy head && negb (all_chars (Ascii.eqb "/") head)
  then rstrip_sep head else head.

Definition posix_join (a b : string) : string :=
  if starts_with "/" b then b
  else if is_empty a || ends_with "/" a then a ++ b
  else a ++ "/" ++ b.

(** [p.rfind(c)], with -1 when [c] does not occur. *)
Fixpoint rfind_from (c : ascii) (p : string) (i acc : Z) : Z :=
  match p with
  | EmptyString => acc
  | String d r => rfind_from c r (i + 1) (if Ascii.eqb d c then i else acc)
  end.

Definition rfind (c : ascii) (p : string) : Z := rfind_from c p 0 (-1).

(** [p[i:j]] for [0 <= i]. *)
Definition slice (p : string) (i j : Z) : string :=
  substring (Z.to_nat i) (Z.to_nat (j - i)) p.

(** [genericpath._splitext(p, '/', None, '.')]: the last dot of the file
    name splits it, unless only dots come before it in the name. *)
Definition posix_splitext (p : string) : string * string :=
  let sepIndex := rfind "/" p in
  let dotIndex := rfind "." p in
  if (sepIndex <? dotIndex)%Z
     && negb (all_chars (Ascii.eqb ".") (slice p (sepIndex + 1) dotIndex))
  then (slice p 0 dotIndex, slice p dotIndex (Z.of_nat (String.length p)))
  else (p, "").

#[export] Instance posix : OsPath := {
  basename := posix_basename;
  dirname := posix_dirname;
  splitext := posix_splitext;
  join := posix_join
}.

End PosixPath.

(** ** [queue.Queue] of the Python standard library, without a size bound *)

Module Queue.

Record t := { items : list string; unfinished_tasks : Z }.

Definition empty : t := {| items := []; unfinished_tasks := 0 |}.

Definition put (q : t) (x : string) : t :=
  {| items := items q ++ [x]; unfinished_tasks := unfinished_tasks q + 1 |}.

(** [get(timeout=...)]: [None] stands for [queue.Empty]. *)
Definition get (q : t) : option (string * t) :=
  match items q with
  | [] => None
  | x :: r => Some (x, {| items := r; unfinished_tasks := unfinished_tasks q |})
  end.

(** [task_done()]: [None] stands for the [ValueError] it raises when the
    counter would drop below zero; the counter is then left as it was. *)
Definition task_done (q : t) : option t :=
  let unfinished := (unfinished_tasks q - 1)%Z in
  if (unfinished <? 0)%Z then None
  else Some {| items := items q; unfinished_tasks := unfinished |}.

(** [join()] returns as soon as it sees the counter at zero. *)
Definition join_returns (q : t) : bool := (unfinished_tasks q =? 0)%Z.

Definition put_all (q : t) (xs : list string) : t := fold_left put xs q.

End Queue.

(** ** Control flow of a Python block over a state [S] *)

Definition exn := string.

Inductive flow (A : Type) :=
| Normal (a : A)        (* fell through *)
| Raised (e : exn)      (* an [Exception], carried as [str(e)] *)
| Continued             (* [continue] *)
| Exited (code : nat).  (* [sys.exit(code)], not an [Exception] *)

Arguments Normal {A} a.
Arguments Raised {A} e.
Arguments Continued {A}.
Arguments Exited {A} code.

Definition M (S A : Type) : Type := S -> flow A * S.

Definition ret {S A} (a : A) : M S A := fun s => (Normal a, s).

Definition bind {S A B} (m : M S A) (f : A -> M S B) : M S B :=
  fun s =>
    match m s with
    | (Normal a, s') => f a s'
    | (Raised e, s') => (Raised e, s')
    | (Continued, s') => (Continued, s')
    | (Exited c, s') => (Exited c, s')
    end.

Definition raise {S A} (e : exn) : M S A := fun s => (Raised e, s).
Definition continue_ {S A} : M S A := fun s => (Continued, s).
Definition sys_exit {S A} (code : nat) : M S A := fun s => (Exited code, s).

(** [try: m  except Exception as e: h e] *)
Definition try_except {S A} (m : M S A) (h : exn -> M S A) : M S A :=
  fun s =>
    match m s with
    | (Raised e, s') => h e s'
    | r => r
    end.

(** A call whose outcome the environment decides. *)
Definition call {S A} (r : exn + A) : M S A :=
  match r with inl e => raise e | inr a => ret a end.

Definition check {S} (r : option exn) : M S unit :=
  match r with Some e => raise e | None => ret tt end.

Definition gets {S A} (f : S -> A) : M S A := fun s => (Normal (f s), s).
Definition modify {S} (f : S -> S) : M S unit := fun s => (Normal tt, f s).

Declare Scope py_scope.
Delimit Scope py_scope with py.
Notation "x <- m ;; k" := (bind m (fun x => k))
  (at level 61, m at next level, right associativity) : py_scope.
Notation "m ;; k" := (bind m (fun _ => k))
  (at level 61, right associativity) : py_scope.
Open Scope py_scope.

(** ** What both front ends share *)

(** The model handle returned by [whisper.load_model]. *)
Inductive handle := Handle (id : nat).

(** The dictionary returned by [model.transcribe]; only ["text"] is read. *)
Record result := { text : option string }.

(** [result.get("text", "").strip() + "\n"] *)
Definition transcript_text (r : result) : string :=
  PyStr.strip (match text r with Some t => t | None => "" end) ++ PyStr.nl.

(** [with open(p, "w") as f: f.write(data)], once [open] has created (or
    emptied) the file: [f.write] and the closing of [f] either put all of
    [data] there, [None], or raise [e] when only the first [n] characters
    have reached the file, [Some (e, n)].  [reached] is what the file holds
    afterwards. *)
Definition reached (failure : option (exn * nat)) (data : string) : string :=
  match failure with
  | None => data
  | Some (_, n) => substring 0 n data
  end.

(** [safe_stem], given the formatted clock reading [ts]. *)
Definition safe_stem `{OsPath} (ts path : string) : string :=
  let stem := fst (splitext (basename path)) in
  stem ++ "_transcript_" ++ ts.

(** ** The background worker ([TranscriberWorker]) *)

Module Worker.
Import PyStr.

(** What [on_update] is called with. *)
Inductive Msg :=
| MsgLoading (model_name device : string)
| MsgSkip (path : string)
| MsgMissingDeps
| MsgText (e : exn)                  (* [on_update(str(e))] *)
| MsgTranscribing (name : string)
| MsgDone (txt_path : string) (seconds : nat)
| MsgError (e : exn).

(** The string each call passes. *)
Definition render (m : Msg) : string :=
  match m with
  | MsgLoading n d => "[Whisper] Loading model: " ++ n ++ " on " ++ d ++ " ..."
  | MsgSkip p => "[Skip] Not found: " ++ p
  | MsgMissingDeps =>
      "[Error] Missing dependencies." ++ nl
      ++ "Install with: pip install -U openai-whisper torch tkinterdnd2"
  | MsgText e => e
  | MsgTranscribing n => "[Transcribing] " ++ n
  | MsgDone p s => "[Done] -> " ++ p ++ "  (" ++ of_nat s ++ "s)"
  | MsgError e => "[Error] " ++ e
  end.

(** The messages that close an item: done, error, skip. *)
Definition terminal (m : Msg) : bool :=
  match m with
  | MsgDone _ _ | MsgError _ | MsgMissingDeps | MsgSkip _ => true
  | MsgLoading _ _ | MsgText _ | MsgTranscribing _ => false
  end.

(** The world around the worker.  Per-item calls are indexed by the number
    of items taken from the queue before, [_lazy_init]'s calls by the number
    of earlier [_lazy_init] calls. *)
Record Env := {
  which_ffmpeg : bool;
  which_ffprobe : bool;
  environ : string -> option string;
  path_exists : nat -> string -> bool;
  import_deps : nat -> option exn;           (* [import torch; import whisper] *)
  cuda_available : nat -> bool;
  load_model : nat -> string -> string -> exn + handle;
  outdir_var : nat -> string;                (* [self.outdir_var.get()] *)
  makedirs : nat -> string -> option exn;
  now : nat -> string;                       (* [strftime("%Y%m%d_%H%M%S")] *)
  transcribe : nat -> handle -> string -> exn + result;
  open_write : nat -> string -> option exn;  (* [open(..., "w")] *)
  write : nat -> string -> string -> option (exn * nat);
                                             (* [f.write(...)] and closing [f] *)
  elapsed : nat -> nat                       (* [int(time.time() - start)] *)
}.

Inductive thread_state :=
| Running
| Returned                 (* [run] returned *)
| Died (e : exn).          (* an exception left [run] *)

Record t := {
  in_q : Queue.t;
  _model : option handle;
  _device : string;
  _stop : bool;
  model_name_env : string;
  updates : list Msg;               (* calls to [on_update], oldest first *)
  files : list (string * string);   (* files opened for writing and what
                                       they hold, oldest first *)
  taken : nat;                      (* items taken from the queue *)
  init_calls : nat;                 (* calls to [_lazy_init] *)
  thread : thread_state
}.

(** [TranscriberWorker.__init__] on a given queue. *)
Definition init (q : Queue.t) : t :=
  {| in_q := q; _model := None; _device := "cpu"; _stop := false;
     model_name_env := "WHISPER_MODEL"; updates := []; files := [];
     taken := 0; init_calls := 0; thread := Running |}.

Definition set_in_q (q : Queue.t) (w : t) : t :=
  {| in_q := q; _model := _model w; _device := _device w; _stop := _stop w;
     model_name_env := model_name_env w; updates := updates w;
     files := files w; taken := taken w; init_calls := init_calls w;
     thread := thread w |}.

Definition set_model (m : option handle) (w : t) : t :=
  {| in_q := in_q w; _model := m; _device := _device w; _stop := _stop w;
     model_name_env := model_name_env w; updates := updates w;
     files := files w; taken := taken w; init_calls := init_calls w;
     thread := thread w |}.

Definition set_device (d : string) (w : t) : t :=
  {| in_q := in_q w; _model := _model w; _device := d; _stop := _stop w;
     model_name_env := model_name_env w; updates := updates w;
     files := files w; taken := taken w; init_calls := init_calls w;
     thread := thread w |}.

Definition set_stop (b : bool) (w : t) : t :=
  {| in_q := in_q w; _model := _model w; _device := _device w; _stop := b;
     model_name_env := model_name_env w; updates := updates w;
     files := files w; taken := taken w; init_calls := init_calls w;
     thread := thread w |}.

Definition push_update (m : Msg) (w : t) : t :=
  {| in_q := in_q w; _model := _model w; _device := _device w; _stop := _stop w;
     model_name_env := model_name_env w; updates := updates w ++ [m];
     files := files w; taken := taken w; init_calls := init_calls w;
     thread := thread w |}.

Definition push_file (p c : string) (w : t) : t :=
  {| in_q := in_q w; _model := _model w; _device := _device w; _stop := _stop w;
     model_name_env := model_name_env w; updates := updates w;
     files := files w ++ [(p, c)]; taken := taken w; init_calls := init_calls w;
     thread := thread w |}.

Definition bump_taken (w : t) : t :=
  {| in_q := in_q w; _model := _model w; _device := _device w; _stop := _stop w;
     model_name_env := model_name_env w; updates := updates w;
     files := files w; taken := S (taken w); init_calls := init_calls w;
     thread := thread w |}.

Definition bump_init_calls (w : t) : t :=
  {| in_q := in_q w; _model := _model w; _device := _device w; _stop := _stop w;
     model_name_env := model_name_env w; updates := updates w;
     files := files w; taken := taken w; init_calls := S (init_calls w);
     thread := thread w |}.

Definition set_thread (s : thread_state) (w : t) : t :=
  {| in_q := in_q w; _model := _model w; _device := _device w; _stop := _stop w;
     model_name_env := model_name_env w; updates := updates w;
     files := files w; taken := taken w; init_calls := init_calls w;
     thread := s |}.

(** [self.stop()], called from another thread. *)
Definition stop (w : t) : t := set_stop true w.

(** [self.in_q.put(path)], called from the UI thread. *)
Definition submit (path : string) (w : t) : t :=
  set_in_q (Queue.put (in_q w) path) w.

Definition submit_all (paths : list string) (w : t) : t :=
  fold_left (fun w p => submit p w) paths w.

Definition on_update (m : Msg) : M t unit := modify (push_update m).

Definition too_many : exn := "task_done() called too many times".

(** [self.in_q.task_done()] *)
Definition task_done : M t unit :=
  fun w =>
    match Queue.task_done (in_q w) with
    | Some q => (Normal tt, set_in_q q w)
    | None => (Raised too_many, w)
    end.

(** [ensure_ffmpeg]'s error text. *)
Definition ffmpeg_missing : exn :=
  ("FFmpeg/FFprobe not found." ++ nl ++ nl
   ++ "Install FFmpeg and add its 'bin' to PATH so 'ffmpeg' and 'ffprobe' work.")%string.

Definition ensure_ffmpeg (env : Env) : M t unit :=
  if which_ffmpeg env && which_ffprobe env then ret tt else raise ffmpeg_missing.

(** [_lazy_init]; the module object it returns is not used by [run]. *)
Definition _lazy_init (env : Env) : M t unit :=
  n <- gets init_calls ;;
  modify bump_init_calls ;;
  check (import_deps env n) ;;
  let device := if cuda_available env n then "cuda" else "cpu" in
  modify (set_device device) ;;
  var <- gets model_name_env ;;
  let model_name := match environ env var with Some v => v | None => "base" end in
  on_update (MsgLoading model_name device) ;;
  m <- call (load_model env n model_name device) ;;
  modify (set_model (Some m)).

Section Run.
Context `{OsPath}.

(** The [try] block of [run] for the [k]-th item.
    [media_duration_seconds] is left out: it catches everything it raises
    and its value, [total], is not read. *)
Definition try_body (env : Env) (k : nat) (path : string) : M t unit :=
  model <- gets _model ;;
  match model with
  | None =>
      try_except (_lazy_init env)
        (fun e =>
           on_update MsgMissingDeps ;;
           on_update (MsgText e) ;;
           task_done ;;
           continue_)
  | Some _ => ret tt
  end ;;
  let outdir := or_else (strip (outdir_var env k)) (dirname path) in
  check (makedirs env k outdir) ;;
  let base_out := join outdir (safe_stem (now env k) path) in
  on_update (MsgTranscribing (basename path)) ;;
  model <- gets _model ;;
  match model with
  | None => raise "'NoneType' object has no attribute 'transcribe'"
  | Some m =>
      result <- call (transcribe env k m path) ;;
      let txt_path := (base_out ++ ".txt")%string in
      check (open_write env k txt_path) ;;
      let data := transcript_text result in
      let failure := write env k txt_path data in
      modify (push_file txt_path (reached failure data)) ;;
      check (option_map fst failure) ;;
      on_update (MsgDone txt_path (elapsed env k))
  end.

(** [try: ... except Exception as e: on_update(f"[Error] {e}")
    finally: self.in_q.task_done()] *)
Definition guarded (env : Env) (k : nat) (path : string) : M t unit :=
  fun w =>
    let (r, w1) := try_except (try_body env k path)
                     (fun e => on_update (MsgError e)) w in
    match task_done w1 with
    | (Normal _, w2) => (r, w2)
    | (r', w2) => (r', w2)     (* what [finally] raises replaces [r] *)
    end.

(** One turn of [while not self._stop.is_set()], from the test of the
    condition to the next test.  An exception that leaves the loop body
    ends the thread. *)
Definition iteration (env : Env) (w : t) : t :=
  match thread w with
  | Running =>
      if _stop w then set_thread Returned w
      else
        match Queue.get (in_q w) with
        | None => w                                   (* [queue.Empty] *)
        | Some (path, q) =>
            let k := taken w in
            let w := bump_taken (set_in_q q w) in
            let body :=
              if negb (path_exists env k path)
              then on_update (MsgSkip path) ;; task_done ;; continue_
              else guarded env k path in
            match body w with
            | (Raised e, w') => set_thread (Died e) w'
            | (_, w') => w'
            end
        end
  | _ => w
  end.

(** The start of [run], before the loop. *)
Definition run_start (env : Env) (w : t) : t :=
  match try_except (ensure_ffmpeg env)
          (fun e => on_update (MsgError e) ;; sys_exit 0) w with
  | (Exited _, w') => set_thread Returned w'          (* [return] *)
  | (_, w') => w'
  end.

(** [n] turns of the loop. *)
Fixpoint run_loop (env : Env) (n : nat) (w : t) : t :=
  match n with
  | O => w
  | S n' => run_loop env n' (iteration env w)
  end.

Definition run (env : Env) (n : nat) (w : t) : t :=
  run_loop env n (run_start env w).

End Run.

(** [App._watch_queue] gets past [self.in_q.join()] exactly in the states
    where the counter is zero. *)
Definition join_returns (w : t) : bool := Queue.join_returns (in_q w).

(** The terminal messages among those posted. *)
Definition terminals (w : t) : list Msg := filter terminal (updates w).

End Worker.

(** ** The command-line script ([transcribe.py]) *)

Module Cli.
Import PyStr.

Record Env := {
  argv : list string;                        (* [sys.argv] *)
  abspath : string -> string;
  path_exists : string -> bool;
  which_ffmpeg : bool;
  import_whisper : option exn;
  environ : string -> option string;
  load_model : string -> exn + handle;
  askdirectory : string -> exn + string;     (* the Tk folder picker *)
  makedirs : string -> option exn;
  transcribe : handle -> string -> exn + result;
  now : string;                              (* [strftime("%Y%m%d_%H%M%S")] *)
  open_write : string -> option exn;         (* [open(..., "w")] *)
  write : string -> string -> option (exn * nat)
                                             (* [f.write(...)] and closing [f] *)
}.

(** What the process leaves behind. *)
Record t := {
  stdout : list string;              (* [print] calls, oldest first *)
  files : list (string * string)     (* files opened for writing and what
                                        they hold, oldest first *)
}.

Definition start : t := {| stdout := []; files := [] |}.

Definition print (s : string) : M t unit :=
  modify (fun w => {| stdout := stdout w ++ [s]; files := files w |}).

Definition write_file (p c : string) : M t unit :=
  modify (fun w => {| stdout := stdout w; files := files w ++ [(p, c)] |}).

Definition ffmpeg_missing : exn :=
  "FFmpeg not found. Install it and make sure 'ffmpeg' is on your PATH.".

Definition ensure_ffmpeg (env : Env) : M t unit :=
  if which_ffmpeg env then ret tt else raise ffmpeg_missing.

(** [sys.argv[i]], for an [i] already checked against [len(sys.argv)]. *)
Definition arg (env : Env) (i : nat) : string := nth i (argv env) "".

Definition pick_output_dir (env : Env) (default_dir : string) : M t string :=
  if (3 <=? List.length (argv env))%nat && truthy (strip (arg env 2))
  then ret (abspath env (arg env 2))
  else
    picked <- try_except (call (askdirectory env default_dir))
                (fun _ => ret "") ;;
    if truthy picked then ret picked else ret default_dir.

Definition usage : string :=
  ("Usage:" ++ nl
   ++ "  python transcribe.py <video_or_audio_path> [output_folder]")%string.

Definition tip : string :=
  (nl ++ "Tip: You can also drag and drop the file onto the .bat shortcut.")%string.

Definition not_installed : string :=
  ("Whisper is not installed. Run:" ++ nl
   ++ "  pip install -U openai-whisper")%string.

Section Main.
Context `{OsPath}.

Definition main (env : Env) : M t unit :=
  (if (List.length (argv env) <? 2)%nat
   then print usage ;; print tip ;; sys_exit 1
   else ret tt) ;;
  let media_path := abspath env (arg env 1) in
  (if negb (path_exists env media_path)
   then print ("File not found: " ++ media_path)%string ;; sys_exit 1
   else ret tt) ;;
  ensure_ffmpeg env ;;
  try_except (check (import_whisper env))
    (fun _ => print not_installed ;; sys_exit 1) ;;
  let model_name :=
    match environ env "WHISPER_MODEL" with Some v => v | None => "base" end in
  print ("[Whisper] Loading model: " ++ model_name ++ " ...")%string ;;
  model <- call (load_model env model_name) ;;
  out_dir <- pick_output_dir env (dirname media_path) ;;
  check (makedirs env out_dir) ;;
  print ("[Whisper] Transcribing: " ++ media_path)%string ;;
  result <- call (transcribe env model media_path) ;;
  let base_out := join out_dir (safe_stem (now env) media_path) in
  let txt_path := (base_out ++ ".txt")%string in
  check (open_write env txt_path) ;;
  let data := transcript_text result in
  let failure := write env txt_path data in
  write_file txt_path (reached failure data) ;;
  check (option_map fst failure) ;;
  print ("[Done] Transcript saved: " ++ txt_path)%string.

(** How the process ends: exit code and, for an exception nobody caught,
    its text. *)
Inductive ending :=
| ExitCode (code : nat)     (* [sys.exit(code)] *)
| Uncaught (e : exn)        (* the exception leaves [main] *)
| Completed.                (* [main] returned *)


Definition ending_of (r : flow unit) : ending :=
  match r with
  | Normal _ | Continued => Completed
  | Raised e => Uncaught e
  | Exited c => ExitCode c
  end.

Definition run (env : Env) : ending * t :=
  let (r, w) := main env start in (ending_of r, w).

End Main.

(** The pre-flight conditions the specification names: the required
    argument is missing, or the input file does not exist. *)
Definition preflight_fails (env : Env) : bool :=
  (List.length (argv env) <? 2)%nat
  || negb (path_exists env (abspath env (arg env 1))).

End Cli.

(** * Properties *)

(** ** Stripping *)

Module PyStrFacts.
Import PyStr.

Lemma append_nil_r (s : string) : (s ++ "")%string = s.
Proof. induction s as [|c r IH]; simpl; [reflexivity | now rewrite IH]. Qed.

Lemma append_assoc (a b c : string) :
  ((a ++ b) ++ c)%string = (a ++ (b ++ c))%string.
Proof. induction a as [|x r IH]; simpl; [reflexivity | now rewrite IH]. Qed.

Lemma lstrip_first (s : string) (c : ascii) :
  first_char (lstrip s) = Some c -> isspace c = false.
Proof.
  induction s as [|a r IH]; simpl; [discriminate|].
  destruct (isspace a) eqn:Ha; [exact IH|].
  simpl. intros [= <-]. exact Ha.
Qed.

Lemma rstrip_first (s : string) (c : ascii) :
  first_char (rstrip s) = Some c -> first_char s = Some c.
Proof.
  destruct s as [|a r]; simpl; [discriminate|].
  destruct (isspace a && is_empty (rstrip r)); simpl; [discriminate | tauto].
Qed.

Lemma rstrip_last (s : string) (c : ascii) :
  last_char (rstrip s) = Some c -> isspace c = false.
Proof.
  induction s as [|a r IH]; simpl; [discriminate|].
  destruct (rstrip r) as [|b r'] eqn:Hr.
  - rewrite andb_true_r. destruct (isspace a) eqn:Ha; simpl; [discriminate|].
    intros [= <-]. exact Ha.
  - rewrite andb_false_r. exact IH.
Qed.

Lemma rstrip_idem (s : string) : rstrip (rstrip s) = rstrip s.
Proof.
  induction s as [|a r IH]; simpl; [reflexivity|].
  destruct (isspace a && is_empty (rstrip r)) eqn:E; simpl; [reflexivity|].
  rewrite IH, E. reflexivity.
Qed.

Lemma lstrip_fix (s : string) :
  (forall c, first_char s = Some c -> isspace c = false) -> lstrip s = s.
Proof.
  destruct s as [|a r]; simpl; [reflexivity|].
  intros H. now rewrite (H a eq_refl).
Qed.

Lemma strip_first (s : string) (c : ascii) :
  first_char (strip s) = Some c -> isspace c = false.
Proof. intros H. apply (lstrip_first s), rstrip_first, H. Qed.

Lemma strip_last (s : string) (c : ascii) :
  last_char (strip s) = Some c -> isspace c = false.
Proof. apply rstrip_last. Qed.

Lemma strip_idem (s : string) : strip (strip s) = strip s.
Proof.
  unfold strip at 1. rewrite lstrip_fix.
  - apply rstrip_idem.
  - intros c. apply strip_first.
Qed.

Lemma strip_empty : strip "" = "".
Proof. reflexivity. Qed.

Lemma truthy_app_r (a b : string) : truthy b = true -> truthy (a ++ b) = true.
Proof. destruct a, b; simpl; auto. Qed.

Lemma all_chars_app (p : ascii -> bool) (a b : string) :
  all_chars p (a ++ b) = all_chars p a && all_chars p b.
Proof.
  induction a as [|c r IH]; simpl; [reflexivity|].
  now rewrite IH, andb_assoc.
Qed.

End PyStrFacts.

(** ** The drag-and-drop splitter *)

Module DndFacts.
Import PyStr PyStrFacts Dnd.

Lemma scan_all_app (a b : string) :
  forall st, scan_all st (a ++ b) = scan_all (scan_all st a) b.
Proof. induction a as [|c r IH]; simpl; intros st; [reflexivity | apply IH]. Qed.

(** Inside a brace group every character but a brace is kept. *)
Lemma scan_group_body (s : string) :
  forall o b, all_chars no_brace s = true ->
    scan_all {| out := o; buf := b; in_brace := true |} s
    = {| out := o; buf := (b ++ s)%string; in_brace := true |}.
Proof.
  induction s as [|c r IH]; simpl; intros o b Hs.
  - now rewrite append_nil_r.
  - apply andb_prop in Hs as [Hc Hr]. unfold no_brace in Hc.
    apply andb_prop in Hc as [H1 H2].
    apply negb_true_iff in H1, H2.
    unfold feed. rewrite H1, H2. simpl. rewrite andb_false_r.
    rewrite (IH _ _ Hr), append_assoc. reflexivity.
Qed.

(** Outside braces every character but a brace and a space is kept. *)
Lemma scan_word_body (s : string) :
  forall o b, all_chars word_char s = true ->
    scan_all {| out := o; buf := b; in_brace := false |} s
    = {| out := o; buf := (b ++ s)%string; in_brace := false |}.
Proof.
  induction s as [|c r IH]; simpl; intros o b Hs.
  - now rewrite append_nil_r.
  - apply andb_prop in Hs as [Hc Hr]. unfold word_char, no_brace in Hc.
    apply andb_prop in Hc as [Hc H3]. apply andb_prop in Hc as [H1 H2].
    apply negb_true_iff in H1, H2, H3.
    unfold feed. rewrite H1, H2, H3. simpl.
    rewrite (IH _ _ Hr), append_assoc. reflexivity.
Qed.

Lemma scan_piece (p : piece) (o : list string) :
  wf_piece p = true ->
  scan_all {| out := o; buf := ""; in_brace := false |} (render_piece p)
  = {| out := o ++ contents [p]; buf := ""; in_brace := false |}.
Proof.
  destruct p as [s|s|]; simpl; intros Hp.
  - unfold feed at 1. simpl. rewrite scan_all_app, (scan_group_body _ _ _ Hp).
    reflexivity.
  - apply andb_prop in Hp as [Hs Ht].
    rewrite scan_all_app, (scan_word_body _ _ _ Hs). simpl.
    unfold feed. simpl. rewrite Ht. reflexivity.
  - now rewrite app_nil_r.
Qed.

Lemma contents_cons (p : piece) (ps : list piece) :
  contents (p :: ps) = contents [p] ++ contents ps.
Proof. destruct p; reflexivity. Qed.

Lemma scan_render (ps : list piece) :
  forall o, forallb wf_piece ps = true ->
    scan_all {| out := o; buf := ""; in_brace := false |} (render ps)
    = {| out := o ++ contents ps; buf := ""; in_brace := false |}.
Proof.
  induction ps as [|p r IH]; intros o Hps.
  - simpl. now rewrite app_nil_r.
  - simpl in Hps. apply andb_prop in Hps as [Hp Hr].
    cbn [render]. rewrite scan_all_app, (scan_piece _ _ Hp), (IH _ Hr).
    rewrite (contents_cons p r), app_assoc. reflexivity.
Qed.

Lemma trimmed_app (a b : list string) : trimmed (a ++ b) = trimmed a ++ trimmed b.
Proof. unfold trimmed. now rewrite filter_app, map_app. Qed.

(** Whatever the data, what the splitter returns is non-empty and trimmed. *)
Lemma trimmed_ok (l : list string) :
  Forall (fun p => truthy p = true /\ strip p = p) (trimmed l).
Proof.
  unfold trimmed. apply Forall_forall. intros p Hp.
  apply in_map_iff in Hp as (q & <- & Hq).
  apply filter_In in Hq as [_ Hq]. split; [exact Hq | apply strip_idem].
Qed.

End DndFacts.

Module DndClaims.
Import PyStr PyStrFacts Dnd DndFacts.

(** A drop with a tab between two names. *)
Definition tab_drop : string := String "a" (String tab (String "b" "")).

(** The drop [{C:/my dir/a.mp4} b.mp3 c.wav]. *)
Definition sample_pieces : list piece :=
  [Group "C:/my dir/a.mp4"; Gap; Word "b.mp3"].

(** C9, as stated, fails: a tab outside braces is whitespace, yet the
    splitter does not separate there; it returns the whole of [a<TAB>b] as
    one path, where a whitespace-delimited reading gives [a] and [b]. *)
Lemma split_dnd_paths_tab_counterexample :
  isspace tab = true
  /\ _split_dnd_paths tab_drop = [tab_drop]
  /\ spec_split_dnd_paths tab_drop = ["a"; "b"]
  /\ _split_dnd_paths tab_drop <> spec_split_dnd_paths tab_drop.
Proof.
  repeat split; try reflexivity.
  intros H. vm_compute in H. discriminate H.
Qed.

(** C9, amended: on a drop made of brace groups, bare words ended by a
    space character, spare spaces and possibly one last bare word, the
    splitter returns the group and word contents in their order of
    appearance, each trimmed, the ones that are empty once trimmed left out;
    a group's characters (spaces among them) form one path, and outside
    braces only the space character separates.  Every path returned is
    non-empty and trimmed. *)
Theorem split_dnd_paths_wellformed (ps : list piece) (last : string) :
  forallb wf_piece ps = true ->
  all_chars word_char last = true ->
  _split_dnd_paths (render ps ++ last) = trimmed (contents ps ++ [last])
  /\ Forall (fun p => truthy p = true /\ strip p = p)
       (_split_dnd_paths (render ps ++ last)).
Proof.
  intros Hps Hlast. split; [|apply trimmed_ok].
  unfold _split_dnd_paths, scan0.
  rewrite scan_all_app, (scan_render _ _ Hps), (scan_word_body _ _ _ Hlast).
  simpl. unfold flush. simpl.
  destruct last as [|c r]; simpl; [|reflexivity].
  rewrite trimmed_app. simpl. now rewrite app_nil_r.
Qed.

Lemma split_dnd_paths_wellformed_witness :
  forallb wf_piece sample_pieces = true
  /\ all_chars word_char "c.wav" = true
  /\ _split_dnd_paths "{C:/my dir/a.mp4} b.mp3 c.wav"
     = ["C:/my dir/a.mp4"; "b.mp3"; "c.wav"].
Proof.
  split; [reflexivity | split; [reflexivity|]].
  exact (proj1 (split_dnd_paths_wellformed sample_pieces "c.wav"
                  eq_refl eq_refl)).
Defined.

End DndClaims.

(** ** The worker *)

Module WorkerFacts.
Import PyStr Worker.

#[local] Arguments strip : simpl never.
#[local] Arguments or_else : simpl never.
#[local] Arguments safe_stem : simpl never.
#[local] Arguments transcript_text : simpl never.
#[local] Arguments String.append : simpl never.

Section Facts.
Context `{OsPath}.
Variable env : Env.

(** The folder the [k]-th item is written to. *)
Definition outdir_of (k : nat) (path : string) : string :=
  or_else (strip (outdir_var env k)) (dirname path).

(** The file the [k]-th item is written to. *)
Definition txt_path_of (k : nat) (path : string) : string :=
  (join (outdir_of k path) (safe_stem (now env k) path) ++ ".txt")%string.

(** The device and model name [_lazy_init] settles on. *)
Definition device_of (w : t) : string :=
  if cuda_available env (init_calls w) then "cuda" else "cpu".

Definition model_name_of (w : t) : string :=
  match environ env (model_name_env w) with Some v => v | None => "base" end.

(** The handle the next item will use, if it gets one: the one already
    there, or the one a first [_lazy_init] loads. *)
Definition ready_model (w : t) : option handle :=
  match _model w with
  | Some m => Some m
  | None =>
      match import_deps env (init_calls w) with
      | Some _ => None
      | None =>
          match load_model env (init_calls w) (model_name_of w) (device_of w) with
          | inr m => Some m
          | inl _ => None
          end
      end
  end.

Lemma iteration_not_running (w : t) :
  thread w <> Running -> iteration env w = w.
Proof. unfold iteration. destruct (thread w); congruence. Qed.

Lemma run_loop_not_running (n : nat) (w : t) :
  thread w <> Running -> run_loop env n w = w.
Proof.
  induction n as [|n IH]; simpl; intros Hw; [reflexivity|].
  rewrite (iteration_not_running w Hw). auto.
Qed.

Ltac run_py :=
  unfold iteration, guarded, try_body, _lazy_init, task_done, try_except, bind,
    gets, modify, check, call, on_update, ret, raise, continue_ in *;
  cbn in *.

Ltac split_match :=
  match goal with
  | |- context [match ?x with _ => _ end] =>
      lazymatch x with
      | context [match _ with _ => _ end] => fail
      | _ => destruct x eqn:?; cbn in *
      end
  end.

(** [self.in_q.task_done()] where nothing catches what it raises. *)
Definition after_task_done (w : t) : t :=
  match Queue.task_done (in_q w) with
  | Some q => set_in_q q w
  | None => set_thread (Died too_many) w
  end.

(** The worker once [_lazy_init] has loaded [m], if it had to. *)
Definition loaded (m : handle) (w : t) : t :=
  match _model w with
  | Some _ => w
  | None =>
      set_model (Some m)
        (push_update (MsgLoading (model_name_of w) (device_of w))
           (set_device (device_of w) (bump_init_calls w)))
  end.

(** All the calls made for one item go well. *)
Definition succeeds (w : t) (path : string) (q : Queue.t) (m : handle)
    (r : result) : Prop :=
  thread w = Running /\ _stop w = false
  /\ Queue.get (in_q w) = Some (path, q)
  /\ path_exists env (taken w) path = true
  /\ ready_model w = Some m
  /\ makedirs env (taken w) (outdir_of (taken w) path) = None
  /\ transcribe env (taken w) m path = inr r
  /\ open_write env (taken w) (txt_path_of (taken w) path) = None
  /\ write env (taken w) (txt_path_of (taken w) path) (transcript_text r) = None.

Lemma iteration_skip (w : t) (path : string) (q : Queue.t) :
  thread w = Running -> _stop w = false ->
  Queue.get (in_q w) = Some (path, q) ->
  path_exists env (taken w) path = false ->
  iteration env w
  = after_task_done (push_update (MsgSkip path) (bump_taken (set_in_q q w))).
Proof.
  intros Hrun Hstop Hget Hex. unfold after_task_done.
  run_py. rewrite Hrun, Hstop, Hget. cbn. rewrite Hex. cbn.
  destruct (Queue.task_done q); reflexivity.
Qed.

Lemma iteration_done (w : t) (path : string) (q : Queue.t) (m : handle)
    (r : result) :
  succeeds w path q m r ->
  iteration env w
  = after_task_done
      (push_update (MsgDone (txt_path_of (taken w) path) (elapsed env (taken w)))
         (push_file (txt_path_of (taken w) path) (transcript_text r)
            (push_update (MsgTranscribing (basename path))
               (loaded m (bump_taken (set_in_q q w)))))).
Proof.
  intros (Hrun & Hstop & Hget & Hex & Hm & Hmk & Htr & Hop & Hwr).
  unfold after_task_done, loaded, txt_path_of, outdir_of, ready_model,
    model_name_of, device_of in *.
  run_py. rewrite Hrun, Hstop, Hget. cbn. rewrite Hex. cbn.
  destruct (_model w) eqn:Emodel.
  - injection Hm as ->. cbn. rewrite Hmk. cbn. rewrite Emodel, Htr. cbn.
    rewrite Hop. cbn. rewrite Hwr. cbn.
    destruct (Queue.task_done q); reflexivity.
  - destruct (import_deps env (init_calls w)) eqn:Ei; [discriminate|].
    destruct (load_model env (init_calls w) _ _) eqn:El; [discriminate|].
    injection Hm as Hm. subst.
    repeat (cbn; rewrite ?Ei, ?El, ?Hmk, ?Htr, ?Hop, ?Hwr).
    destruct (Queue.task_done q); reflexivity.
Qed.

(** All the calls made for one item go well up to [open]; then [f.write] or
    the closing of the file raises [e], [n] characters having reached it. *)
Definition write_fails (w : t) (path : string) (q : Queue.t) (m : handle)
    (r : result) (e : exn) (n : nat) : Prop :=
  thread w = Running /\ _stop w = false
  /\ Queue.get (in_q w) = Some (path, q)
  /\ path_exists env (taken w) path = true
  /\ ready_model w = Some m
  /\ makedirs env (taken w) (outdir_of (taken w) path) = None
  /\ transcribe env (taken w) m path = inr r
  /\ open_write env (taken w) (txt_path_of (taken w) path) = None
  /\ write env (taken w) (txt_path_of (taken w) path) (transcript_text r)
     = Some (e, n).

Lemma iteration_write_fails (w : t) (path : string) (q : Queue.t) (m : handle)
    (r : result) (e : exn) (n : nat) :
  write_fails w path q m r e n ->
  iteration env w
  = after_task_done
      (push_update (MsgError e)
         (push_file (txt_path_of (taken w) path)
            (substring 0 n (transcript_text r))
            (push_update (MsgTranscribing (basename path))
               (loaded m (bump_taken (set_in_q q w)))))).
Proof.
  intros (Hrun & Hstop & Hget & Hex & Hm & Hmk & Htr & Hop & Hwr).
  unfold after_task_done, loaded, txt_path_of, outdir_of, ready_model,
    model_name_of, device_of in *.
  run_py. rewrite Hrun, Hstop, Hget. cbn. rewrite Hex. cbn.
  destruct (_model w) eqn:Emodel.
  - injection Hm as ->. cbn. rewrite Hmk. cbn. rewrite Emodel, Htr. cbn.
    rewrite Hop. cbn. rewrite Hwr. cbn.
    destruct (Queue.task_done q); reflexivity.
  - destruct (import_deps env (init_calls w)) eqn:Ei; [discriminate|].
    destruct (load_model env (init_calls w) _ _) eqn:El; [discriminate|].
    injection Hm as Hm. subst.
    repeat (cbn; rewrite ?Ei, ?El, ?Hmk, ?Htr, ?Hop, ?Hwr).
    destruct (Queue.task_done q); reflexivity.
Qed.

Lemma after_task_done_files (w : t) : files (after_task_done w) = files w.
Proof. unfold after_task_done. destruct (Queue.task_done _); reflexivity. Qed.

Lemma after_task_done_updates (w : t) :
  updates (after_task_done w) = updates w.
Proof. unfold after_task_done. destruct (Queue.task_done _); reflexivity. Qed.

Lemma after_task_done_taken (w : t) : taken (after_task_done w) = taken w.
Proof. unfold after_task_done. destruct (Queue.task_done _); reflexivity. Qed.

Lemma loaded_files (m : handle) (w : t) : files (loaded m w) = files w.
Proof. unfold loaded. destruct (_model w); reflexivity. Qed.

Lemma loaded_taken (m : handle) (w : t) : taken (loaded m w) = taken w.
Proof. unfold loaded. destruct (_model w); reflexivity. Qed.

Lemma loaded_terminals (m : handle) (w : t) :
  filter terminal (updates (loaded m w)) = filter terminal (updates w).
Proof.
  unfold loaded. destruct (_model w); cbn; [reflexivity|].
  rewrite filter_app. cbn. apply app_nil_r.
Qed.

(** The worker after an [import] that fails in [_lazy_init], up to the two
    messages of the handler. *)
Definition reported (e : exn) (w : t) : t :=
  push_update (MsgText e) (push_update MsgMissingDeps (bump_init_calls w)).

(** An item whose [_lazy_init] fails at the imports: the handler marks the
    item done, and so does [finally]. *)
Lemma iteration_import_fails (w : t) (path : string) (q : Queue.t) (e : exn) :
  thread w = Running -> _stop w = false ->
  Queue.get (in_q w) = Some (path, q) ->
  path_exists env (taken w) path = true ->
  _model w = None ->
  import_deps env (init_calls w) = Some e ->
  iteration env w
  = let w1 := reported e (bump_taken (set_in_q q w)) in
    match Queue.task_done q with
    | Some q1 => after_task_done (set_in_q q1 w1)
    | None => after_task_done (push_update (MsgError too_many) w1)
    end.
Proof.
  intros Hrun Hstop Hget Hex Hm Himp. unfold after_task_done, reported.
  run_py. rewrite Hrun, Hstop, Hget. cbn. rewrite Hex. cbn.
  rewrite Hm. cbn. rewrite Himp. cbn.
  destruct (Queue.task_done q) as [q1|] eqn:E1; cbn.
  - destruct (Queue.task_done q1); reflexivity.
  - rewrite E1. reflexivity.
Qed.

(** A handle that is there is neither replaced nor loaded again. *)
Lemma iteration_keeps_model (w : t) (m : handle) :
  _model w = Some m ->
  _model (iteration env w) = Some m
  /\ init_calls (iteration env w) = init_calls w.
Proof.
  intros Hm. run_py.
  repeat (split_match; rewrite ?Hm in *; cbn in *);
    try discriminate; auto.
Qed.

Lemma run_loop_keeps_model (n : nat) :
  forall (w : t) (m : handle),
    _model w = Some m ->
    _model (run_loop env n w) = Some m
    /\ init_calls (run_loop env n w) = init_calls w.
Proof.
  induction n as [|n IH]; intros w m Hm; cbn; [auto|].
  destruct (iteration_keeps_model w m Hm) as [H1 H2].
  destruct (IH _ _ H1) as [H3 H4]. split; congruence.
Qed.

(** An item that reaches the model without a handle calls [_lazy_init],
    whatever happened before. *)
Lemma iteration_attempts_init (w : t) (path : string) (q : Queue.t) :
  thread w = Running -> _stop w = false ->
  Queue.get (in_q w) = Some (path, q) ->
  path_exists env (taken w) path = true ->
  _model w = None ->
  init_calls (iteration env w) = S (init_calls w)
  /\ _model (iteration env w) = ready_model w.
Proof.
  intros Hrun Hstop Hget Hex Hm.
  unfold ready_model, model_name_of, device_of. run_py.
  rewrite Hrun, Hstop, Hget. cbn. rewrite Hex. cbn. rewrite Hm. cbn.
  repeat (split_match; rewrite ?Hm in *; cbn in *);
    try discriminate; auto.
Qed.

(** One turn of the loop opens at most one file, and what the file then
    holds is what reached it of the text of the result [transcribe] returned
    for the item. *)
Lemma iteration_files (w : t) :
  files (iteration env w) = files w
  \/ exists path q m r,
       Queue.get (in_q w) = Some (path, q)
       /\ transcribe env (taken w) m path = inr r
       /\ files (iteration env w)
          = files w
            ++ [(txt_path_of (taken w) path,
                 reached (write env (taken w) (txt_path_of (taken w) path)
                            (transcript_text r))
                   (transcript_text r))].
Proof.
  unfold txt_path_of, outdir_of. run_py.
  repeat (split_match; cbn in *); auto;
    right; do 4 eexists; (split; [reflexivity|]); split; eauto.
Qed.

End Facts.
End WorkerFacts.

Module WorkerClaims.
Import PyStr Worker WorkerFacts.

Section Claims.
Context `{OsPath}.
Variable env : Env.

Lemma get_counter (q q' : Queue.t) (path : string) :
  Queue.get q = Some (path, q') ->
  Queue.unfinished_tasks q' = Queue.unfinished_tasks q
  /\ Queue.items q = path :: Queue.items q'.
Proof.
  unfold Queue.get. destruct (Queue.items q) eqn:E; [discriminate|].
  intros [= <- <-]. auto.
Qed.

Lemma task_done_positive (q : Queue.t) :
  (0 < Queue.unfinished_tasks q)%Z ->
  Queue.task_done q
  = Some {| Queue.items := Queue.items q;
            Queue.unfinished_tasks := Queue.unfinished_tasks q - 1 |}.
Proof.
  intros Hq. unfold Queue.task_done.
  destruct (Z.ltb_spec (Queue.unfinished_tasks q - 1) 0); [lia | reflexivity].
Qed.

(** While the counter is positive, as it is whenever every earlier item was
    marked done once, an item whose path is gone when the worker takes it
    gets exactly one message, the skip message; no file is written, no
    model is loaded, the item is marked done once, and the worker goes on
    with the rest of the queue. *)
Lemma skip_with_positive_counter (w : t) (path : string) (q : Queue.t) :
  thread w = Running -> _stop w = false ->
  Queue.get (in_q w) = Some (path, q) ->
  path_exists env (taken w) path = false ->
  (0 < Queue.unfinished_tasks (in_q w))%Z ->
  let w' := iteration env w in
  updates w' = updates w ++ [MsgSkip path]
  /\ files w' = files w
  /\ Queue.items (in_q w') = Queue.items q
  /\ Queue.unfinished_tasks (in_q w') = (Queue.unfinished_tasks (in_q w) - 1)%Z
  /\ (Queue.unfinished_tasks (in_q w) = 1%Z -> join_returns w' = true)
  /\ thread w' = Running
  /\ _model w' = _model w /\ init_calls w' = init_calls w.
Proof.
  intros Hrun Hstop Hget Hex Hpos w'. subst w'.
  rewrite (iteration_skip env w path q Hrun Hstop Hget Hex).
  destruct (get_counter _ _ _ Hget) as [Hc _].
  unfold after_task_done. cbn. rewrite task_done_positive by lia. cbn.
  rewrite Hc. repeat split; auto.
  intros H1. unfold join_returns, Queue.join_returns. cbn. rewrite H1.
  reflexivity.
Qed.

(** With the counter at zero (or below), the [task_done] of the skip branch
    raises where nothing catches it: the skip message is posted, the item
    is not marked done, and the thread ends. *)
Lemma skip_with_counter_spent (w : t) (path : string) (q : Queue.t) :
  thread w = Running -> _stop w = false ->
  Queue.get (in_q w) = Some (path, q) ->
  path_exists env (taken w) path = false ->
  (Queue.unfinished_tasks (in_q w) <= 0)%Z ->
  updates (iteration env w) = updates w ++ [MsgSkip path]
  /\ files (iteration env w) = files w
  /\ Queue.unfinished_tasks (in_q (iteration env w))
     = Queue.unfinished_tasks (in_q w)
  /\ thread (iteration env w) = Died too_many.
Proof.
  intros Hrun Hstop Hget Hex Hneg.
  rewrite (iteration_skip env w path q Hrun Hstop Hget Hex).
  destruct (get_counter _ _ _ Hget) as [Hc _].
  unfold after_task_done, Queue.task_done. cbn.
  destruct (Z.ltb_spec (Queue.unfinished_tasks q - 1) 0); [|lia].
  cbn. auto.
Qed.

(** C5: an item for which every call goes well leaves exactly one new file,
    [join(D, <stem>_transcript_<timestamp>) + ".txt"], with [D] the folder
    chosen for the item; the file holds the stripped text of the result and
    a newline, nothing else; the item ends with the done message. *)
Theorem one_transcript_file_per_item (w : t) (path : string) (q : Queue.t)
    (m : handle) (r : result) :
  succeeds env w path q m r ->
  let k := taken w in
  let D := outdir_of env k path in
  let stem := fst (splitext (basename path)) in
  let txt := (join D (stem ++ "_transcript_" ++ now env k) ++ ".txt")%string in
  files (iteration env w) = files w ++ [(txt, transcript_text r)]
  /\ transcript_text r
     = (strip (match text r with Some t => t | None => "" end) ++ nl)%string
  /\ terminals (iteration env w)
     = terminals w ++ [MsgDone txt (elapsed env k)].
Proof.
  intros Hs k D stem txt. rewrite (iteration_done env w path q m r Hs).
  split; [|split]; [| reflexivity |].
  - rewrite after_task_done_files. cbn. rewrite loaded_files. reflexivity.
  - unfold terminals. rewrite after_task_done_updates. cbn.
    rewrite !filter_app, loaded_terminals. cbn. rewrite app_nil_r.
    reflexivity.
Qed.

(** C6: the folder is read when an item is processed.  For two items
    processed one after the other, each file goes to the folder the setting
    held at that item's turn (stripped), and to the item's own parent folder
    when the setting was empty then. *)
Theorem outdir_is_read_per_item (w : t) (A B : string) (qA qB : Queue.t)
    (mA mB : handle) (rA rB : result) :
  succeeds env w A qA mA rA ->
  succeeds env (iteration env w) B qB mB rB ->
  let k := taken w in
  let dir_at (i : nat) (p : string) :=
    if truthy (strip (outdir_var env i)) then strip (outdir_var env i)
    else dirname p in
  files (iteration env (iteration env w))
  = files w
    ++ [((join (dir_at k A) (safe_stem (now env k) A) ++ ".txt")%string,
         transcript_text rA);
        ((join (dir_at (S k) B) (safe_stem (now env (S k)) B) ++ ".txt")%string,
         transcript_text rB)].
Proof.
  intros HA HB k dir_at.
  assert (Hk : taken (iteration env w) = S k).
  { rewrite (iteration_done env w A qA mA rA HA), after_task_done_taken.
    cbn. now rewrite loaded_taken. }
  rewrite (iteration_done env _ B qB mB rB HB), after_task_done_files.
  cbn. rewrite loaded_files. cbn. rewrite Hk.
  rewrite (iteration_done env w A qA mA rA HA), after_task_done_files.
  cbn. rewrite loaded_files. cbn.
  rewrite <- app_assoc. reflexivity.
Qed.

(** The worker starts without a handle; an item that reaches the model
    while there is none and while the thread runs calls [_lazy_init] (again
    after a failure: nothing remembers one), and the handle it leaves is the
    one loaded, if any; a handle that is there stays the same through every
    later turn of the loop, and [_lazy_init] is not called again. *)
Lemma lazy_init_while_running (w : t) (path : string) (q : Queue.t) :
  thread w = Running -> _stop w = false ->
  Queue.get (in_q w) = Some (path, q) ->
  path_exists env (taken w) path = true ->
  (forall q0, _model (init q0) = None /\ init_calls (init q0) = 0)
  /\ (_model w = None ->
      init_calls (iteration env w) = S (init_calls w)
      /\ _model (iteration env w) = ready_model env w)
  /\ (forall m, _model w = Some m ->
      forall n, _model (run_loop env n w) = Some m
                /\ init_calls (run_loop env n w) = init_calls w).
Proof.
  intros Hrun Hstop Hget Hex. split; [|split].
  - intros q0. split; reflexivity.
  - intros Hm. exact (iteration_attempts_init env w path q Hrun Hstop Hget Hex Hm).
  - intros m Hm n. exact (run_loop_keeps_model env n w m Hm).
Qed.

(** C1 fails on the code: when [_lazy_init] fails for an item, the item is
    marked done twice, so with two items submitted [join] returns after the
    first one, while the second is still in the queue. *)
Theorem join_returns_while_item_pending (w : t) (path next : string)
    (q : Queue.t) (rest : list string) (e : exn) :
  thread w = Running -> _stop w = false ->
  Queue.get (in_q w) = Some (path, q) ->
  Queue.items q = next :: rest ->
  path_exists env (taken w) path = true ->
  _model w = None ->
  import_deps env (init_calls w) = Some e ->
  Queue.unfinished_tasks (in_q w) = 2%Z ->
  let w' := iteration env w in
  join_returns w' = true
  /\ Queue.items (in_q w') = next :: rest
  /\ Queue.unfinished_tasks (in_q w')
     = (Queue.unfinished_tasks (in_q w) - 2)%Z
  /\ thread w' = Running.
Proof.
  intros Hrun Hstop Hget Hitems Hex Hm Himp Hcount w'. subst w'.
  rewrite (iteration_import_fails env w path q e Hrun Hstop Hget Hex Hm Himp).
  destruct (get_counter _ _ _ Hget) as [Hc _].
  cbn. rewrite task_done_positive by lia.
  unfold after_task_done. cbn. rewrite task_done_positive by (cbn; lia).
  unfold join_returns, Queue.join_returns. cbn. rewrite Hc, Hcount, Hitems.
  repeat split; auto.
Qed.

End Claims.

End WorkerClaims.

(** ** The command-line script *)

Module CliFacts.
Import PyStr Cli.

#[local] Arguments strip : simpl never.
#[local] Arguments safe_stem : simpl never.
#[local] Arguments transcript_text : simpl never.
#[local] Arguments String.append : simpl never.
#[local] Arguments Nat.ltb : simpl never.
#[local] Arguments Nat.leb : simpl never.
#[local] Arguments nth : simpl never.

Ltac run_cli :=
  unfold run, main, pick_output_dir, ensure_ffmpeg, print, write_file,
    try_except, bind, gets, modify, check, call, ret, raise, sys_exit in *;
  cbn in *.

Ltac split_match :=
  match goal with
  | |- context [match ?x with _ => _ end] =>
      lazymatch x with
      | context [match _ with _ => _ end] => fail
      | _ => destruct x eqn:?; cbn in *
      end
  end.

Section Facts.
Context `{OsPath}.
Variable env : Env.

Definition media_path : string := abspath env (arg env 1).

Definition model_name : string :=
  match environ env "WHISPER_MODEL" with Some v => v | None => "base" end.

(** The folder [pick_output_dir] returns. *)
Definition picked (default_dir : string) : string :=
  if (3 <=? List.length (argv env))%nat && truthy (strip (arg env 2))
  then abspath env (arg env 2)
  else
    match askdirectory env default_dir with
    | inr d => if truthy d then d else default_dir
    | inl _ => default_dir
    end.

Definition txt_path : string :=
  (join (picked (dirname media_path)) (safe_stem (now env) media_path)
   ++ ".txt")%string.



(** Past the three checks, what a call raises leaves [main] as it is. *)
Lemma load_failure_propagates (e : exn) :
  preflight_fails env = false -> which_ffmpeg env = true ->
  import_whisper env = None ->
  load_model env model_name = inl e ->
  run env
  = (Uncaught e,
     {| stdout := [("[Whisper] Loading model: " ++ model_name ++ " ...")%string];
        files := [] |}).
Proof.
  unfold preflight_fails, model_name. intros Hpre Hff Himp Hload.
  apply orb_false_elim in Hpre as [Hargs Hex].
  apply negb_false_iff in Hex.
  run_cli. rewrite Hargs. cbn. rewrite Hex. cbn. rewrite Hff. cbn.
  rewrite Himp. cbn. rewrite Hload. reflexivity.
Qed.


(** The script opens at most one file, and what the file then holds is
    what reached it of the text of the result [transcribe] returned: all of
    it when the script runs to its end, and otherwise what was there when
    [f.write] or the closing of the file raised. *)
Lemma run_files :
  files (snd (run env)) = []
  \/ exists m r,
       transcribe env m media_path = inr r
       /\ files (snd (run env))
          = [(txt_path,
              reached (write env txt_path (transcript_text r))
                (transcript_text r))]
       /\ (write env txt_path (transcript_text r) = None
           /\ fst (run env) = Completed
           \/ exists e n,
                write env txt_path (transcript_text r) = Some (e, n)
                /\ fst (run env) = Uncaught e).
Proof.
  unfold txt_path, picked, media_path. run_cli.
  repeat split_match; auto; right; do 2 eexists;
    (split; [eassumption|]); (split; [reflexivity|]);
    match goal with
    | Hw : option_map fst ?x = _ |- _ =>
        destruct x as [[? ?]|]; cbn in Hw; try discriminate Hw;
        try (injection Hw as ->)
    end; eauto.
Qed.

(** Every call the script makes goes well. *)
Definition completes (m : handle) (r : result) : Prop :=
  preflight_fails env = false /\ which_ffmpeg env = true
  /\ import_whisper env = None
  /\ load_model env model_name = inr m
  /\ makedirs env (picked (dirname media_path)) = None
  /\ transcribe env m media_path = inr r
  /\ open_write env txt_path = None
  /\ write env txt_path (transcript_text r) = None.

(** Every call goes well up to [open]; then [f.write] or the closing of the
    file raises [e], [n] characters having reached the file. *)
Definition write_fails (m : handle) (r : result) (e : exn) (n : nat) : Prop :=
  preflight_fails env = false /\ which_ffmpeg env = true
  /\ import_whisper env = None
  /\ load_model env model_name = inr m
  /\ makedirs env (picked (dirname media_path)) = None
  /\ transcribe env m media_path = inr r
  /\ open_write env txt_path = None
  /\ write env txt_path (transcript_text r) = Some (e, n).

Lemma run_past_open (m : handle) (r : result) :
  preflight_fails env = false -> which_ffmpeg env = true ->
  import_whisper env = None ->
  load_model env model_name = inr m ->
  makedirs env (picked (dirname media_path)) = None ->
  transcribe env m media_path = inr r ->
  open_write env txt_path = None ->
  run env
  = let data := transcript_text r in
    let printed :=
      [("[Whisper] Loading model: " ++ model_name ++ " ...")%string;
       ("[Whisper] Transcribing: " ++ media_path)%string] in
    match write env txt_path data with
    | None =>
        (Completed,
         {| stdout
            := printed ++ [("[Done] Transcript saved: " ++ txt_path)%string];
            files := [(txt_path, data)] |})
    | Some (e, n) =>
        (Uncaught e,
         {| stdout := printed; files := [(txt_path, substring 0 n data)] |})
    end.
Proof.
  unfold preflight_fails, txt_path, model_name, picked, media_path.
  intros Hpre Hff Himp Hload Hmk Htr Hop.
  apply orb_false_elim in Hpre as [Hargs Hex].
  apply negb_false_iff in Hex.
  run_cli. rewrite Hargs. cbn. rewrite Hex. cbn. rewrite Hff. cbn.
  rewrite Himp. cbn. rewrite Hload. cbn.
  repeat (split_match; rewrite ?Hmk, ?Htr, ?Hop in *; cbn in * );
    try discriminate; try reflexivity;
    repeat match goal with
           | Hi : inr _ = inr _ |- _ => injection Hi as <-
           | Hw : write _ _ _ = _ |- _ => rewrite Hw in *; cbn in *
           | Hs : Some _ = Some _ |- _ => injection Hs as <-
           end; try discriminate; try reflexivity.
Qed.

Lemma run_completes (m : handle) (r : result) :
  completes m r ->
  run env
  = (Completed,
     {| stdout
        := [("[Whisper] Loading model: " ++ model_name ++ " ...")%string;
            ("[Whisper] Transcribing: " ++ media_path)%string;
            ("[Done] Transcript saved: " ++ txt_path)%string];
        files := [(txt_path, transcript_text r)] |}).
Proof.
  intros (Hpre & Hff & Himp & Hload & Hmk & Htr & Hop & Hwr).
  rewrite (run_past_open m r Hpre Hff Himp Hload Hmk Htr Hop).
  cbv zeta. rewrite Hwr. reflexivity.
Qed.

Lemma run_write_fails (m : handle) (r : result) (e : exn) (n : nat) :
  write_fails m r e n ->
  run env
  = (Uncaught e,
     {| stdout
        := [("[Whisper] Loading model: " ++ model_name ++ " ...")%string;
            ("[Whisper] Transcribing: " ++ media_path)%string];
        files := [(txt_path, substring 0 n (transcript_text r))] |}).
Proof.
  intros (Hpre & Hff & Himp & Hload & Hmk & Htr & Hop & Hwr).
  rewrite (run_past_open m r Hpre Hff Himp Hload Hmk Htr Hop).
  cbv zeta. rewrite Hwr. reflexivity.
Qed.



End Facts.
End CliFacts.

Module CliClaims.
Import PyStr PyStrFacts Cli CliFacts.

Section Claims.
Context `{OsPath}.


End Claims.

End CliClaims.

(** ** The text of a transcript, in both front ends *)

Module TranscriptClaims.
Import PyStr PyStrFacts.

Section Claims.
Context `{OsPath}.

(** [result.get("text", "").strip()] *)
Definition stripped (r : result) : string :=
  strip (match text r with Some t => t | None => "" end).

(** C10, amended: when [open], [f.write] and the closing of the file all go
    well, the file holds the result's [text], stripped, followed by one
    newline, and just the newline when the result has no [text]; the
    stripped part neither starts nor ends with whitespace.  When [f.write]
    or the closing raises after [open] has made the file, the file is left
    with a leading part of that text, possibly none of it.  This is so for
    the file the worker writes for an item and for the file the script
    writes. *)
Theorem transcript_text_is_stripped (r : result) :
  (text r = None -> stripped r = "")
  /\ (forall c, first_char (stripped r) = Some c -> isspace c = false)
  /\ (forall c, last_char (stripped r) = Some c -> isspace c = false)
  /\ (forall (env : Worker.Env) (w : Worker.t) path q m,
        WorkerFacts.succeeds env w path q m r ->
        Worker.files (Worker.iteration env w)
        = Worker.files w
          ++ [(WorkerFacts.txt_path_of env (Worker.taken w) path,
               (stripped r ++ nl)%string)])
  /\ (forall (env : Worker.Env) (w : Worker.t) path q m e n,
        WorkerFacts.write_fails env w path q m r e n ->
        Worker.files (Worker.iteration env w)
        = Worker.files w
          ++ [(WorkerFacts.txt_path_of env (Worker.taken w) path,
               substring 0 n (stripped r ++ nl))])
  /\ (forall (env : Cli.Env) m,
        CliFacts.completes env m r ->
        Cli.files (snd (Cli.run env))
        = [(CliFacts.txt_path env, (stripped r ++ nl)%string)])
  /\ (forall (env : Cli.Env) m e n,
        CliFacts.write_fails env m r e n ->
        Cli.files (snd (Cli.run env))
        = [(CliFacts.txt_path env, substring 0 n (stripped r ++ nl))]).
Proof.
  unfold stripped. split; [|split; [|split; [|split; [|split; [|split]]]]].
  - intros ->. reflexivity.
  - intros c. apply strip_first.
  - intros c. apply strip_last.
  - intros env w path q m Hs.
    rewrite (WorkerFacts.iteration_done env w path q m r Hs).
    rewrite WorkerFacts.after_task_done_files. cbn.
    now rewrite WorkerFacts.loaded_files.
  - intros env w path q m e n Hs.
    rewrite (WorkerFacts.iteration_write_fails env w path q m r e n Hs).
    rewrite WorkerFacts.after_task_done_files. cbn.
    now rewrite WorkerFacts.loaded_files.
  - intros env m Hs. now rewrite (CliFacts.run_completes env m r Hs).
  - intros env m e n Hs. now rewrite (CliFacts.run_write_fails env m r e n Hs).
Qed.

End Claims.

End TranscriptClaims.

(** ** Scenarios on a POSIX machine *)

Module Scenarios.
Import PyStr PosixPath.

Definition stamp : string := "20240101_120000".

Definition heard : result := {| text := Some "  hello world " |}.

Definition no_whisper : exn := "No module named 'whisper'".

(** A machine where everything works; the output folder is first set to
    [/out] (typed with spaces around it), then cleared. *)
Definition studio : Worker.Env := {|
  Worker.which_ffmpeg := true;
  Worker.which_ffprobe := true;
  Worker.environ := fun _ => None;
  Worker.path_exists := fun _ p => negb (String.eqb p "missing.wav");
  Worker.import_deps := fun _ => None;
  Worker.cuda_available := fun _ => false;
  Worker.load_model := fun _ _ _ => inr (Handle 0);
  Worker.outdir_var := fun k => match k with O => " /out " | _ => "" end;
  Worker.makedirs := fun _ _ => None;
  Worker.now := fun _ => stamp;
  Worker.transcribe := fun _ _ _ => inr heard;
  Worker.open_write := fun _ _ => None;
  Worker.write := fun _ _ _ => None;
  Worker.elapsed := fun _ => 3
|}.

(** The same machine without the whisper library. *)
Definition bare : Worker.Env := {|
  Worker.which_ffmpeg := true;
  Worker.which_ffprobe := true;
  Worker.environ := fun _ => None;
  Worker.path_exists := fun _ p => negb (String.eqb p "missing.wav");
  Worker.import_deps := fun _ => Some no_whisper;
  Worker.cuda_available := fun _ => false;
  Worker.load_model := fun _ _ _ => inr (Handle 0);
  Worker.outdir_var := fun _ => "/out";
  Worker.makedirs := fun _ _ => None;
  Worker.now := fun _ => stamp;
  Worker.transcribe := fun _ _ _ => inr heard;
  Worker.open_write := fun _ _ => None;
  Worker.write := fun _ _ _ => None;
  Worker.elapsed := fun _ => 3
|}.

(** A fresh worker with the given paths submitted. *)
Definition batch (paths : list string) : Worker.t :=
  Worker.submit_all paths (Worker.init Queue.empty).

Definition queue_of (paths : list string) (n : Z) : Queue.t :=
  {| Queue.items := paths; Queue.unfinished_tasks := n |}.

Definition a_mp3 : string := "/media/a.mp3".
Definition b_wav : string := "/media/sub/b.wav".



Lemma studio_succeeds :
  WorkerFacts.succeeds studio (batch [a_mp3; b_wav]) a_mp3
    (queue_of [b_wav] 2) (Handle 0) heard.
Proof. repeat split. Defined.

Lemma studio_succeeds_again :
  WorkerFacts.succeeds studio
    (Worker.iteration studio (batch [a_mp3; b_wav])) b_wav
    (queue_of [] 1) (Handle 0) heard.
Proof. repeat split. Defined.

Lemma one_transcript_file_per_item_witness :
  Worker.files (Worker.iteration studio (batch [a_mp3; b_wav]))
  = [("/out/a_transcript_20240101_120000.txt", ("hello world" ++ nl)%string)].
Proof.
  exact (proj1 (WorkerClaims.one_transcript_file_per_item studio
                  (batch [a_mp3; b_wav]) a_mp3 (queue_of [b_wav] 2)
                  (Handle 0) heard studio_succeeds)).
Defined.

Lemma outdir_is_read_per_item_witness :
  Worker.files
    (Worker.iteration studio (Worker.iteration studio (batch [a_mp3; b_wav])))
  = [("/out/a_transcript_20240101_120000.txt", ("hello world" ++ nl)%string);
     ("/media/sub/b_transcript_20240101_120000.txt",
      ("hello world" ++ nl)%string)].
Proof.
  exact (WorkerClaims.outdir_is_read_per_item studio
           (batch [a_mp3; b_wav]) a_mp3 b_wav (queue_of [b_wav] 2)
           (queue_of [] 1) (Handle 0) (Handle 0) heard heard
           studio_succeeds studio_succeeds_again).
Defined.

Lemma join_returns_while_item_pending_witness :
  Worker.join_returns (Worker.iteration bare (batch [a_mp3; b_wav])) = true
  /\ Queue.items (Worker.in_q (Worker.iteration bare (batch [a_mp3; b_wav])))
     = [b_wav].
Proof.
  pose proof (WorkerClaims.join_returns_while_item_pending bare
                (batch [a_mp3; b_wav]) a_mp3 b_wav (queue_of [b_wav] 2) []
                no_whisper eq_refl eq_refl eq_refl eq_refl eq_refl eq_refl
                eq_refl eq_refl) as Hw.
  cbv zeta in Hw. destruct Hw as (Hj & Hi & _).
  exact (conj Hj Hi).
Defined.

Lemma run_dead (env : Worker.Env) (n : nat) (w : Worker.t) :
  Worker.thread (Worker.run_loop env 2 w) <> Worker.Running ->
  Worker.run_loop env (2 + n) w = Worker.run_loop env 2 w.
Proof.
  intros Hd. change (2 + n) with (S (S n)). cbn [Worker.run_loop] in *.
  now apply WorkerFacts.run_loop_not_running.
Qed.

(** C2 fails on the code: with the whisper library missing and two existing
    paths submitted, the worker posts three terminal messages, two of them
    for the second path; with three paths submitted it posts two, its loop
    is over after the second path, and the third path gets none. *)
Theorem failed_init_terminal_messages (n : nat) :
  Worker.terminals (Worker.run bare (2 + n) (batch [a_mp3; b_wav]))
  = [Worker.MsgMissingDeps; Worker.MsgMissingDeps;
     Worker.MsgError Worker.too_many]
  /\ Worker.terminals
       (Worker.run bare (2 + n) (batch [a_mp3; b_wav; "/media/c.mp4"]))
     = [Worker.MsgMissingDeps; Worker.MsgMissingDeps].
Proof.
  unfold Worker.run. split.
  - rewrite run_dead; [reflexivity | vm_compute; discriminate].
  - rewrite run_dead; [reflexivity | vm_compute; discriminate].
Qed.

(** C3 fails on the code: with the whisper library missing, both of two
    submitted items get their failure report, but the second [task_done] of
    the second item raises in [finally] and ends the worker thread; with one
    item submitted the thread ends right after it. *)
Theorem failed_init_ends_worker (n : nat) :
  Worker.thread (Worker.run bare (2 + n) (batch [a_mp3; b_wav]))
  = Worker.Died Worker.too_many
  /\ Worker.updates (Worker.run bare (2 + n) (batch [a_mp3; b_wav]))
     = [Worker.MsgMissingDeps; Worker.MsgText no_whisper;
        Worker.MsgMissingDeps; Worker.MsgText no_whisper;
        Worker.MsgError Worker.too_many]
  /\ Worker.thread (Worker.run bare (2 + n) (batch [a_mp3]))
     = Worker.Died Worker.too_many
  /\ Worker.updates (Worker.run bare (2 + n) (batch [a_mp3]))
     = [Worker.MsgMissingDeps; Worker.MsgText no_whisper].
Proof.
  unfold Worker.run. repeat split;
    (rewrite run_dead; [reflexivity | vm_compute; discriminate]).
Qed.

(** C4 fails on the code: with the whisper library missing, an existing
    path and then a missing one submitted.  The failed [_lazy_init] marks
    the first item done twice, which brings the counter to zero with the
    missing path still queued; on the missing path the worker posts the skip
    message, but the [task_done] of the skip branch then raises outside any
    [try]: the item is not marked done, the thread ends, and a path
    submitted afterwards stays in the queue for ever. *)
Theorem missing_path_ends_worker (n m : nat) :
  Worker.thread (Worker.run bare 1 (batch [a_mp3; "missing.wav"]))
  = Worker.Running
  /\ Worker.in_q (Worker.run bare 1 (batch [a_mp3; "missing.wav"]))
     = queue_of ["missing.wav"] 0
  /\ Worker.updates (Worker.run bare (2 + n) (batch [a_mp3; "missing.wav"]))
     = [Worker.MsgMissingDeps; Worker.MsgText no_whisper;
        Worker.MsgSkip "missing.wav"]
  /\ Worker.files (Worker.run bare (2 + n) (batch [a_mp3; "missing.wav"])) = []
  /\ Worker.in_q (Worker.run bare (2 + n) (batch [a_mp3; "missing.wav"]))
     = queue_of [] 0
  /\ Worker.thread (Worker.run bare (2 + n) (batch [a_mp3; "missing.wav"]))
     = Worker.Died Worker.too_many
  /\ Worker.in_q
       (Worker.run_loop bare m
          (Worker.submit b_wav
             (Worker.run bare (2 + n) (batch [a_mp3; "missing.wav"]))))
     = queue_of [b_wav] 1.
Proof.
  unfold Worker.run.
  rewrite run_dead by (vm_compute; discriminate).
  rewrite (WorkerFacts.run_loop_not_running bare m)
    by (vm_compute; discriminate).
  repeat split.
Qed.

(** C8 fails on the code: with the whisper library missing and three
    existing paths submitted, the first and the second item each call
    [_lazy_init], and the handle stays empty; but the second failure ends
    the worker thread (its [task_done] in [finally] raises), so the third
    item never gets its attempt: [_lazy_init] has been called twice, however
    long one waits, and the third path is still in the queue. *)
Theorem failed_init_stops_retries (n : nat) :
  Worker.init_calls
    (Worker.run bare 1 (batch [a_mp3; b_wav; "/media/c.mp4"])) = 1
  /\ Worker.init_calls
       (Worker.run bare (2 + n) (batch [a_mp3; b_wav; "/media/c.mp4"])) = 2
  /\ Worker._model
       (Worker.run bare (2 + n) (batch [a_mp3; b_wav; "/media/c.mp4"])) = None
  /\ Queue.items
       (Worker.in_q
          (Worker.run bare (2 + n) (batch [a_mp3; b_wav; "/media/c.mp4"])))
     = ["/media/c.mp4"]
  /\ Worker.thread
       (Worker.run bare (2 + n) (batch [a_mp3; b_wav; "/media/c.mp4"]))
     = Worker.Died Worker.too_many.
Proof.
  unfold Worker.run.
  rewrite run_dead by (vm_compute; discriminate).
  repeat split.
Qed.



(** The script called with a folder, everything working. *)
Definition working_cli : Cli.Env := {|
  Cli.argv := ["transcribe.py"; "a.mp4"; "/out"];
  Cli.abspath := fun p => p;
  Cli.path_exists := fun _ => true;
  Cli.which_ffmpeg := true;
  Cli.import_whisper := None;
  Cli.environ := fun _ => None;
  Cli.load_model := fun _ => inr (Handle 0);
  Cli.askdirectory := fun _ => inr "";
  Cli.makedirs := fun _ => None;
  Cli.transcribe := fun _ _ => inr heard;
  Cli.now := stamp;
  Cli.open_write := fun _ => None;
  Cli.write := fun _ _ => None
|}.

Definition no_space : exn := "[Errno 28] No space left on device".

(** The studio with a full disk: the file can be made, nothing can be
    written to it. *)
Definition full_disk : Worker.Env := {|
  Worker.which_ffmpeg := true;
  Worker.which_ffprobe := true;
  Worker.environ := fun _ => None;
  Worker.path_exists := fun _ _ => true;
  Worker.import_deps := fun _ => None;
  Worker.cuda_available := fun _ => false;
  Worker.load_model := fun _ _ _ => inr (Handle 0);
  Worker.outdir_var := fun _ => "/out";
  Worker.makedirs := fun _ _ => None;
  Worker.now := fun _ => stamp;
  Worker.transcribe := fun _ _ _ => inr heard;
  Worker.open_write := fun _ _ => None;
  Worker.write := fun _ _ _ => Some (no_space, 0);
  Worker.elapsed := fun _ => 3
|}.

(** The script on the same disk. *)
Definition full_disk_cli : Cli.Env := {|
  Cli.argv := ["transcribe.py"; "a.mp4"; "/out"];
  Cli.abspath := fun p => p;
  Cli.path_exists := fun _ => true;
  Cli.which_ffmpeg := true;
  Cli.import_whisper := None;
  Cli.environ := fun _ => None;
  Cli.load_model := fun _ => inr (Handle 0);
  Cli.askdirectory := fun _ => inr "";
  Cli.makedirs := fun _ => None;
  Cli.transcribe := fun _ _ => inr heard;
  Cli.now := stamp;
  Cli.open_write := fun _ => None;
  Cli.write := fun _ _ => Some (no_space, 0)
|}.

(** C10, as stated, fails: on a full disk the model returns a result, the
    file is made by [open], and the write raises; the file is left empty,
    without text and without newline, in the worker and in the script. *)
Lemma transcript_text_is_stripped_counterexample :
  Worker.transcribe full_disk 0 (Handle 0) a_mp3 = inr heard
  /\ Worker.files (Worker.iteration full_disk (batch [a_mp3]))
     = [("/out/a_transcript_20240101_120000.txt", "")]
  /\ Cli.transcribe full_disk_cli (Handle 0) "a.mp4" = inr heard
  /\ Cli.files (snd (Cli.run full_disk_cli))
     = [("/out/a_transcript_20240101_120000.txt", "")]
  /\ transcript_text heard <> "".
Proof. repeat split. discriminate. Qed.

Lemma transcript_text_is_stripped_witness :
  Worker.files (Worker.iteration studio (batch [a_mp3; b_wav]))
  = [("/out/a_transcript_20240101_120000.txt", ("hello world" ++ nl)%string)]
  /\ Cli.files (snd (Cli.run working_cli))
     = [("/out/a_transcript_20240101_120000.txt",
         ("hello world" ++ nl)%string)]
  /\ Worker.files (Worker.iteration full_disk (batch [a_mp3]))
     = [("/out/a_transcript_20240101_120000.txt", "")].
Proof.
  pose proof (TranscriptClaims.transcript_text_is_stripped heard)
    as (_ & _ & _ & Hw & Hf & Hc & _).
  split; [|split].
  - exact (Hw studio (batch [a_mp3; b_wav]) a_mp3 (queue_of [b_wav] 2)
             (Handle 0) studio_succeeds).
  - exact (Hc working_cli (Handle 0)
             (conj eq_refl (conj eq_refl (conj eq_refl (conj eq_refl
                (conj eq_refl (conj eq_refl (conj eq_refl eq_refl)))))))).
  - exact (Hf full_disk (batch [a_mp3]) a_mp3 (queue_of [] 1) (Handle 0)
             no_space 0
             (conj eq_refl (conj eq_refl (conj eq_refl (conj eq_refl
                (conj eq_refl (conj eq_refl (conj eq_refl
                   (conj eq_refl eq_refl))))))))).
Defined.

End Scenarios.

(** * Further properties of the worker *)

Module WorkerMore.
Import PyStr Worker WorkerFacts WorkerClaims.

#[local] Arguments strip : simpl never.
#[local] Arguments or_else : simpl never.
#[local] Arguments safe_stem : simpl never.
#[local] Arguments transcript_text : simpl never.
#[local] Arguments String.append : simpl never.

Ltac run_py :=
  unfold iteration, guarded, try_body, _lazy_init, task_done, try_except, bind,
    gets, modify, check, call, on_update, ret, raise, continue_ in *;
  cbn in *.

Ltac split_match :=
  match goal with
  | |- context [match ?x with _ => _ end] =>
      lazymatch x with
      | context [match _ with _ => _ end] => fail
      | _ => destruct x eqn:?; cbn in *
      end
  end.

Section More.
Context `{OsPath}.
Variable env : Env.

(** The ways the work on an item can fail once the model is there: the output
    folder cannot be made, the model raises, or the file cannot be opened. *)
Definition item_fails (w : t) (path : string) (m : handle) (e : exn) : Prop :=
  let k := taken w in
  makedirs env k (outdir_of env k path) = Some e
  \/ (makedirs env k (outdir_of env k path) = None
      /\ transcribe env k m path = inl e)
  \/ (makedirs env k (outdir_of env k path) = None
      /\ (exists r, transcribe env k m path = inr r)
      /\ open_write env k (txt_path_of env k path) = Some e).

(** Whether [_lazy_init] can succeed whenever it is called. *)
Definition loadable : Prop :=
  (forall k, import_deps env k = None)
  /\ (forall k name dev, exists m, load_model env k name dev = inr m).

(** The state between two items when nothing went wrong with the counter. *)
Definition consistent (w : t) : Prop :=
  thread w = Running /\ _stop w = false
  /\ Queue.unfinished_tasks (in_q w)
     = Z.of_nat (List.length (Queue.items (in_q w))).

Definition can_load (w : t) : Prop := _model w <> None \/ loadable.

Lemma get_cons (q : Queue.t) (p : string) (rest : list string) :
  Queue.items q = p :: rest ->
  Queue.get q
  = Some (p, {| Queue.items := rest;
                Queue.unfinished_tasks := Queue.unfinished_tasks q |}).
Proof. unfold Queue.get. now intros ->. Qed.

Lemma get_nil (q : Queue.t) : Queue.items q = [] -> Queue.get q = None.
Proof. unfold Queue.get. now intros ->. Qed.

Lemma run_start_no_ffmpeg (w : t) :
  which_ffmpeg env && which_ffprobe env = false ->
  run_start env w = set_thread Returned (push_update (MsgError ffmpeg_missing) w).
Proof.
  intros Hff. unfold run_start, ensure_ffmpeg. rewrite Hff. reflexivity.
Qed.

Lemma iteration_fails (w : t) (path : string) (q : Queue.t) (m : handle)
    (e : exn) :
  thread w = Running -> _stop w = false ->
  Queue.get (in_q w) = Some (path, q) ->
  path_exists env (taken w) path = true ->
  _model w = Some m ->
  item_fails w path m e ->
  exists pre,
    Forall (fun x => terminal x = false) pre
    /\ iteration env w
       = after_task_done
           (push_update (MsgError e)
              (fold_left (fun s x => push_update x s) pre
                 (bump_taken (set_in_q q w)))).
Proof.
  intros Hrun Hstop Hget Hex Hm Hf. unfold item_fails in Hf.
  unfold after_task_done, txt_path_of, outdir_of in *.
  run_py. rewrite Hrun, Hstop, Hget. cbn. rewrite Hex. cbn. rewrite Hm. cbn.
  destruct Hf as [Hmk | [[Hmk Htr] | (Hmk & [r Htr] & Hop)]].
  - exists []. split; [constructor|]. rewrite Hmk. cbn.
    destruct (Queue.task_done q); reflexivity.
  - exists [MsgTranscribing (basename path)]. split; [repeat constructor|].
    rewrite Hmk. cbn. rewrite Hm, Htr. cbn.
    destruct (Queue.task_done q); reflexivity.
  - exists [MsgTranscribing (basename path)]. split; [repeat constructor|].
    rewrite Hmk. cbn. rewrite Hm, Htr. cbn. rewrite Hop. cbn.
    destruct (Queue.task_done q); reflexivity.
Qed.

(** X4: when the imports go through and [load_model] raises, the item gets
    the loading line, then the missing-dependencies report and the text of
    the exception; the device has been set, the handle stays empty and no
    file is written.  As after every failed [_lazy_init] the item is then
    marked done twice: with a counter of 2 or more the thread goes on, the
    counter lowered by 2; with a counter of 1 the [task_done] in [finally]
    raises and ends the thread; with a counter spent already the handler's
    [task_done] raises too, which adds one more error message. *)
Theorem load_failure_reported_as_missing_deps (w : t) (path : string)
    (q : Queue.t) (e : exn) :
  thread w = Running -> _stop w = false ->
  Queue.get (in_q w) = Some (path, q) ->
  path_exists env (taken w) path = true ->
  _model w = None ->
  import_deps env (init_calls w) = None ->
  load_model env (init_calls w) (model_name_of env w) (device_of env w) = inl e ->
  updates (iteration env w)
  = updates w
    ++ [MsgLoading (model_name_of env w) (device_of env w);
        MsgMissingDeps; MsgText e]
    ++ (if (0 <? Queue.unfinished_tasks (in_q w))%Z then []
        else [MsgError too_many])
  /\ _model (iteration env w) = None
  /\ _device (iteration env w) = device_of env w
  /\ files (iteration env w) = files w
  /\ thread (iteration env w)
     = (if (1 <? Queue.unfinished_tasks (in_q w))%Z then Running
        else Died too_many)
  /\ ((1 < Queue.unfinished_tasks (in_q w))%Z ->
      Queue.unfinished_tasks (in_q (iteration env w))
      = (Queue.unfinished_tasks (in_q w) - 2)%Z).
Proof.
  intros Hrun Hstop Hget Hex Hm Himp Hload.
  destruct (get_counter _ _ _ Hget) as [Hc _].
  unfold model_name_of, device_of in *.
  run_py. rewrite Hrun, Hstop, Hget. cbn. rewrite Hex. cbn. rewrite Hm. cbn.
  rewrite Himp. cbn. rewrite Hload. cbn.
  unfold Queue.task_done. rewrite Hc. cbn.
  destruct (Z.ltb_spec (Queue.unfinished_tasks (in_q w) - 1) 0) as [H1|H1];
    destruct (Z.ltb_spec 0 (Queue.unfinished_tasks (in_q w))) as [H0|H0];
    try lia; cbn; rewrite ?Hc; cbn.
  - destruct (Z.ltb_spec (Queue.unfinished_tasks (in_q w) - 1) 0); [|lia].
    destruct (Z.ltb_spec 1 (Queue.unfinished_tasks (in_q w))); [lia|].
    cbn. rewrite <- !app_assoc. repeat split; auto. lia.
  - destruct (Z.ltb_spec (Queue.unfinished_tasks (in_q w) - 1 - 1) 0);
      destruct (Z.ltb_spec 1 (Queue.unfinished_tasks (in_q w)));
      try lia; cbn; rewrite <- !app_assoc; repeat split; auto; lia.
Qed.

(** One item taken from a consistent queue by a worker that has, or can
    load, the model: whatever happens to the item, it gets one terminal
    message and is marked done once. *)
Lemma iteration_turn (w : t) (p : string) (rest : list string) :
  consistent w -> can_load w ->
  Queue.items (in_q w) = p :: rest ->
  consistent (iteration env w)
  /\ can_load (iteration env w)
  /\ Queue.items (in_q (iteration env w)) = rest
  /\ exists msg, terminal msg = true
       /\ terminals (iteration env w) = terminals w ++ [msg].
Proof.
  intros (Hrun & Hstop & Hcount) Hload Hitems.
  pose proof (get_cons _ _ _ Hitems) as Hget.
  assert (Htd : Queue.task_done
                  {| Queue.items := rest;
                     Queue.unfinished_tasks := Queue.unfinished_tasks (in_q w) |}
                = Some {| Queue.items := rest;
                          Queue.unfinished_tasks := Z.of_nat (List.length rest) |}).
  { rewrite task_done_positive; cbn; rewrite Hcount, Hitems; cbn [List.length];
      [f_equal; f_equal; lia | lia]. }
  unfold consistent, can_load, terminals.
  run_py. rewrite Hrun, Hstop, Hget. cbn.
  destruct (path_exists env (taken w) p); cbn.
  - destruct (_model w) as [m|] eqn:Hm; cbn.
    + repeat (split_match; rewrite ?Htd, ?Hm in *; cbn in * );
        rewrite ?filter_app; cbn; rewrite ?app_nil_r;
        (repeat split; auto; try (left; congruence); eexists; split; [|reflexivity]; reflexivity).
    + destruct Hload as [Hl | Hl]; [congruence|].
      destruct Hl as [Himp Hlm]. rewrite Himp. cbn.
      match goal with
      | |- context [load_model env ?k ?n ?d] =>
          destruct (Hlm k n d) as [m0 Hm0]; rewrite Hm0
      end. cbn.
      repeat (split_match; rewrite ?Htd in *; cbn in * );
        rewrite ?filter_app; cbn; rewrite ?app_nil_r;
        (repeat split; auto; try (left; congruence); eexists; split; [|reflexivity]; reflexivity).
  - rewrite Htd. cbn. rewrite filter_app. cbn.
    repeat split; auto. eexists; split; [|reflexivity]; reflexivity.
Qed.

Lemma run_loop_batch (n : nat) :
  forall w : t,
    consistent w -> can_load w ->
    n <= List.length (Queue.items (in_q w)) ->
    consistent (run_loop env n w)
    /\ can_load (run_loop env n w)
    /\ Queue.items (in_q (run_loop env n w)) = skipn n (Queue.items (in_q w))
    /\ exists msgs,
         List.length msgs = n
         /\ forallb terminal msgs = true
         /\ terminals (run_loop env n w) = terminals w ++ msgs.
Proof.
  induction n as [|n IH]; intros w Hc Hl Hn.
  - cbn. split; [exact Hc|]. split; [exact Hl|]. split; [reflexivity|].
    exists []. cbn. now rewrite app_nil_r.
  - destruct (Queue.items (in_q w)) as [|p rest] eqn:Hitems; [cbn in Hn; lia|].
    destruct (iteration_turn w p rest Hc Hl Hitems)
      as (Hc' & Hl' & Hi' & msg & Hmsg & Ht').
    cbn in Hn. assert (Hn' : n <= List.length (Queue.items (in_q (iteration env w))))
      by (rewrite Hi'; lia).
    destruct (IH _ Hc' Hl' Hn') as (Hc2 & Hl2 & Hi2 & msgs & Hlen & Hall & Ht2).
    cbn [run_loop skipn]. rewrite Hi' in Hi2.
    split; [exact Hc2|]. split; [exact Hl2|]. split; [exact Hi2|].
    exists (msg :: msgs). cbn. rewrite Hmsg, Hall, Hlen, Ht2, Ht', <- app_assoc.
    repeat split; reflexivity.
Qed.

Lemma run_loop_idle (n : nat) (w : t) :
  Queue.items (in_q w) = [] -> _stop w = false -> run_loop env n w = w.
Proof.
  intros Hi Hs. induction n as [|n IH]; cbn; [reflexivity|].
  assert (Hw : iteration env w = w).
  { unfold iteration. rewrite Hs, (get_nil _ Hi). now destruct (thread w). }
  now rewrite Hw.
Qed.

Lemma run_loop_add (n m : nat) :
  forall w : t, run_loop env (n + m) w = run_loop env m (run_loop env n w).
Proof. induction n as [|n IH]; intros w; cbn; [reflexivity | apply IH]. Qed.

(** X1: without ffmpeg or ffprobe the worker posts the error once and its
    thread returns; however long one waits, it takes nothing from the
    queue, writes nothing, and [join] is where it was. *)
Theorem no_ffmpeg_no_work (n : nat) (w : t) :
  which_ffmpeg env && which_ffprobe env = false ->
  run env n w = set_thread Returned (push_update (MsgError ffmpeg_missing) w)
  /\ in_q (run env n w) = in_q w
  /\ files (run env n w) = files w
  /\ join_returns (run env n w) = join_returns w.
Proof.
  intros Hff. unfold run. rewrite (run_start_no_ffmpeg w Hff).
  rewrite run_loop_not_running by (cbn; discriminate).
  repeat split; reflexivity.
Qed.

(** X2: once [stop] has been called, the next test of the loop condition
    ends [run]: nothing more is taken from the queue, whatever is in it. *)
Theorem stop_ends_loop (n : nat) (w : t) :
  thread w = Running ->
  run_loop env (S n) (stop w) = set_thread Returned (stop w)
  /\ in_q (run_loop env (S n) (stop w)) = in_q w
  /\ updates (run_loop env (S n) (stop w)) = updates w
  /\ files (run_loop env (S n) (stop w)) = files w.
Proof.
  intros Hrun. cbn [run_loop].
  assert (Hs : iteration env (stop w) = set_thread Returned (stop w)).
  { unfold iteration. cbn. now rewrite Hrun. }
  rewrite Hs, run_loop_not_running by (cbn; discriminate).
  repeat split; reflexivity.
Qed.

(** X3: with the model there, an item whose folder cannot be made, whose
    transcription raises or whose file cannot be opened ends with one error
    message carrying the exception's text; no file is written, the item is
    marked done once, and the worker keeps its handle and goes on. *)
Theorem item_failure_is_contained (w : t) (path : string) (q : Queue.t)
    (m : handle) (e : exn) :
  thread w = Running -> _stop w = false ->
  Queue.get (in_q w) = Some (path, q) ->
  path_exists env (taken w) path = true ->
  _model w = Some m ->
  (0 < Queue.unfinished_tasks (in_q w))%Z ->
  item_fails w path m e ->
  terminals (iteration env w) = terminals w ++ [MsgError e]
  /\ files (iteration env w) = files w
  /\ Queue.items (in_q (iteration env w)) = Queue.items q
  /\ Queue.unfinished_tasks (in_q (iteration env w))
     = (Queue.unfinished_tasks (in_q w) - 1)%Z
  /\ thread (iteration env w) = Running
  /\ _model (iteration env w) = Some m.
Proof.
  intros Hrun Hstop Hget Hex Hm Hpos Hf.
  destruct (iteration_fails w path q m e Hrun Hstop Hget Hex Hm Hf)
    as (pre & Hpre & ->).
  destruct (get_counter _ _ _ Hget) as [Hc _].
  assert (Hfold : forall l s,
            in_q (fold_left (fun s x => push_update x s) l s) = in_q s
            /\ files (fold_left (fun s x => push_update x s) l s) = files s
            /\ thread (fold_left (fun s x => push_update x s) l s) = thread s
            /\ _model (fold_left (fun s x => push_update x s) l s) = _model s
            /\ updates (fold_left (fun s x => push_update x s) l s)
               = updates s ++ l).
  { induction l as [|x l IH]; intros s; cbn.
    - now rewrite app_nil_r.
    - destruct (IH (push_update x s)) as (-> & -> & -> & -> & ->). cbn.
      now rewrite <- app_assoc. }
  destruct (Hfold pre (bump_taken (set_in_q q w))) as (Hq & Hfi & Ht & Hmo & Hu).
  unfold after_task_done, terminals. cbn. rewrite Hq. cbn.
  rewrite task_done_positive by lia. cbn. rewrite Hfi, Ht, Hmo, Hu. cbn.
  rewrite Hc, !filter_app. cbn.
  assert (Hnone : filter terminal pre = []).
  { clear -Hpre. induction Hpre as [|x l Hx _ IH]; cbn; [reflexivity|].
    now rewrite Hx. }
  rewrite Hnone, app_nil_r. repeat split; auto.
Qed.

(** X5: a worker that has or can load the model, on a queue whose counter
    matches its content: [n] turns of the loop take the first [n] items in
    order and post exactly [n] terminal messages, one per turn, whatever the
    mix of missing files, failures and successes; the worker is still
    running and the counter still matches. *)
Theorem batch_gets_one_terminal_each (n : nat) (w : t) :
  consistent w -> can_load w ->
  n <= List.length (Queue.items (in_q w)) ->
  consistent (run_loop env n w)
  /\ Queue.items (in_q (run_loop env n w)) = skipn n (Queue.items (in_q w))
  /\ exists msgs,
       List.length msgs = n
       /\ forallb terminal msgs = true
       /\ terminals (run_loop env n w) = terminals w ++ msgs.
Proof.
  intros Hc Hl Hn.
  destruct (run_loop_batch n w Hc Hl Hn) as (H1 & _ & H2 & H3). auto.
Qed.

(** X6: under the same conditions [join] returns exactly when the last item
    is done: not before, and from then on the loop only polls the empty
    queue. *)
Theorem batch_drains_and_joins (w : t) :
  consistent w -> can_load w ->
  let k := List.length (Queue.items (in_q w)) in
  (forall n, n < k -> join_returns (run_loop env n w) = false)
  /\ join_returns (run_loop env k w) = true
  /\ Queue.items (in_q (run_loop env k w)) = []
  /\ thread (run_loop env k w) = Running
  /\ (forall n, run_loop env (k + n) w = run_loop env k w).
Proof.
  intros Hc Hl k. subst k.
  destruct (run_loop_batch _ w Hc Hl (le_n _)) as ((Hr & Hs & Hcnt) & _ & Hi & _).
  rewrite skipn_all in Hi.
  split; [|split; [|split; [|split]]]; auto.
  - intros n Hn.
    destruct (run_loop_batch n w Hc Hl (Nat.lt_le_incl _ _ Hn))
      as ((_ & _ & Hcn) & _ & Hin & _).
    unfold join_returns, Queue.join_returns. rewrite Hcn, Hin.
    apply Z.eqb_neq. rewrite length_skipn. lia.
  - unfold join_returns, Queue.join_returns. rewrite Hcnt, Hi. reflexivity.
  - intros n. rewrite run_loop_add. now apply run_loop_idle.
Qed.

End More.
End WorkerMore.

(** * The window ([App]) *)

Module App.
Import PyStr.

(** [status_var]: "Ready" or "Transcribing...". *)
Inductive Status := Ready | Transcribing.

(** What the window itself passes to [on_update_safe]. *)
Inductive Line :=
| LineInfo                   (* "[Info] Add or drop at least one file." *)
| LineQueued (count : nat)   (* "[Queued] {count} file(s). Starting..." *)
| LineAllDone.               (* "[All done]" *)

Record t := {
  input_list : list string;      (* the left list box *)
  outdir_var : string;
  status_var : Status;
  transcribe_btn : string;       (* the button's [state] *)
  posted : list Line;            (* the window's calls to [on_update_safe] *)
  worker : Worker.t;             (* owns the shared queue [in_q] *)
  watchers : nat                 (* [_watch_queue] threads waiting in [join] *)
}.

(** [App.__init__], as far as these fields go. *)
Definition init : t :=
  {| input_list := []; outdir_var := ""; status_var := Ready;
     transcribe_btn := "normal"; posted := [];
     worker := Worker.init Queue.empty; watchers := 0 |}.

Definition set_input_list (l : list string) (a : t) : t :=
  {| input_list := l; outdir_var := outdir_var a; status_var := status_var a;
     transcribe_btn := transcribe_btn a; posted := posted a;
     worker := worker a; watchers := watchers a |}.

Definition set_outdir_var (s : string) (a : t) : t :=
  {| input_list := input_list a; outdir_var := s; status_var := status_var a;
     transcribe_btn := transcribe_btn a; posted := posted a;
     worker := worker a; watchers := watchers a |}.

Definition set_worker (w : Worker.t) (a : t) : t :=
  {| input_list := input_list a; outdir_var := outdir_var a;
     status_var := status_var a; transcribe_btn := transcribe_btn a;
     posted := posted a; worker := w; watchers := watchers a |}.

Definition on_update_safe (l : Line) (a : t) : t :=
  {| input_list := input_list a; outdir_var := outdir_var a;
     status_var := status_var a; transcribe_btn := transcribe_btn a;
     posted := posted a ++ [l]; worker := worker a; watchers := watchers a |}.

(** [_add_path], with [os.path.isfile] given. *)
Definition _add_path (isfile : string -> bool) (a : t) (p : string) : t :=
  if isfile p then set_input_list (input_list a ++ [p]) a else a.

(** [add_files], given what the file dialog returned. *)
Definition add_files (isfile : string -> bool) (paths : list string) (a : t) : t :=
  fold_left (_add_path isfile) paths a.

(** [on_drop], given [event.data]. *)
Definition on_drop (isfile : string -> bool) (data : string) (a : t) : t :=
  fold_left (_add_path isfile) (Dnd._split_dnd_paths data) a.

(** The Clear button. *)
Definition clear (a : t) : t := set_input_list [] a.

(** [pick_outdir], given what the folder dialog returned. *)
Definition pick_outdir (d : string) (a : t) : t :=
  if truthy d then set_outdir_var d a else a.

(** The [get_outdir] handed to the worker. *)
Definition get_outdir (a : t) : string := strip (outdir_var a).

(** [start_transcribe] *)
Definition start_transcribe (a : t) : t :=
  let count := List.length (input_list a) in
  if (count =? 0)%nat then on_update_safe LineInfo a
  else
    let queued :=
      fold_left (fun w i => Worker.submit (nth i (input_list a) "") w)
        (seq 0 count) (worker a) in
    let a := on_update_safe (LineQueued count) (set_worker queued a) in
    {| input_list := input_list a; outdir_var := outdir_var a;
       status_var := Transcribing; transcribe_btn := "disabled";
       posted := posted a; worker := worker a; watchers := S (watchers a) |}.

(** [_watch_queue], from the moment [join] lets it through; [None] while
    [join] blocks. *)
Definition _watch_queue (a : t) : option t :=
  if Worker.join_returns (worker a) then
    let a := on_update_safe LineAllDone a in
    Some {| input_list := input_list a; outdir_var := outdir_var a;
            status_var := Ready; transcribe_btn := "normal";
            posted := posted a; worker := worker a;
            watchers := pred (watchers a) |}
  else None.

(** The worker's environment with the folder setting read from the window. *)
Definition with_outdir (env : Worker.Env) (s : string) : Worker.Env :=
  {| Worker.which_ffmpeg := Worker.which_ffmpeg env;
     Worker.which_ffprobe := Worker.which_ffprobe env;
     Worker.environ := Worker.environ env;
     Worker.path_exists := Worker.path_exists env;
     Worker.import_deps := Worker.import_deps env;
     Worker.cuda_available := Worker.cuda_available env;
     Worker.load_model := Worker.load_model env;
     Worker.outdir_var := fun _ => s;
     Worker.makedirs := Worker.makedirs env;
     Worker.now := Worker.now env;
     Worker.transcribe := Worker.transcribe env;
     Worker.open_write := Worker.open_write env;
     Worker.write := Worker.write env;
     Worker.elapsed := Worker.elapsed env |}.

Section Turns.
Context `{OsPath}.

(** One turn of the worker's loop while the window is in state [a]. *)
Definition worker_turn (env : Worker.Env) (a : t) : t :=
  set_worker (Worker.iteration (with_outdir env (outdir_var a)) (worker a)) a.

Fixpoint worker_turns (env : Worker.Env) (n : nat) (a : t) : t :=
  match n with
  | O => a
  | S n' => worker_turns env n' (worker_turn env a)
  end.

End Turns.

End App.

Module AppFacts.
Import PyStr App.

Lemma add_paths_input (isfile : string -> bool) (paths : list string) :
  forall a : t,
    fold_left (_add_path isfile) paths a
    = set_input_list (input_list a ++ filter isfile paths) a.
Proof.
  induction paths as [|p r IH]; intros a; cbn.
  - rewrite app_nil_r. now destruct a.
  - rewrite IH. unfold _add_path. destruct (isfile p); cbn.
    + now rewrite <- app_assoc.
    + reflexivity.
Qed.

Lemma nth_seq (l : list string) :
  map (fun i => nth i l "") (seq 0 (List.length l)) = l.
Proof.
  induction l as [|x r IH]; cbn; [reflexivity|].
  f_equal. rewrite <- seq_shift, map_map. exact IH.
Qed.

Lemma submit_fold (l : list string) (idx : list nat) :
  forall w : Worker.t,
    fold_left (fun w i => Worker.submit (nth i l "") w) idx w
    = Worker.submit_all (map (fun i => nth i l "") idx) w.
Proof.
  unfold Worker.submit_all.
  induction idx as [|i r IH]; intros w; cbn; [reflexivity | apply IH].
Qed.

Lemma submit_all_queue (l : list string) :
  forall w : Worker.t,
    Worker.submit_all l w
    = Worker.set_in_q
        {| Queue.items := Queue.items (Worker.in_q w) ++ l;
           Queue.unfinished_tasks
           := Queue.unfinished_tasks (Worker.in_q w) + Z.of_nat (List.length l) |}
        w.
Proof.
  unfold Worker.submit_all.
  induction l as [|x r IH]; intros w.
  - cbn. rewrite app_nil_r, Z.add_0_r. now destruct w as [[]].
  - cbn [fold_left]. rewrite IH. unfold Worker.submit, Queue.put. cbn.
    rewrite <- app_assoc. cbn [List.length app]. unfold Worker.set_in_q. cbn.
    f_equal. f_equal. lia.
Qed.

End AppFacts.

Module AppMore.
Import PyStr App AppFacts.

(** X7: a drop adds to the list, in their order in the data, exactly the
    parts of the data that are existing files, duplicates included, and
    changes nothing else; the file dialog's paths are treated the same
    way. *)
Theorem on_drop_adds_existing_files (isfile : string -> bool) (data : string)
    (paths : list string) (a : t) :
  on_drop isfile data a
  = set_input_list
      (input_list a ++ filter isfile (Dnd._split_dnd_paths data)) a
  /\ add_files isfile paths a
     = set_input_list (input_list a ++ filter isfile paths) a
  /\ (forall p, In p (input_list (on_drop isfile data a)) ->
        In p (input_list a) \/ isfile p = true).
Proof.
  unfold on_drop, add_files. rewrite !add_paths_input.
  split; [reflexivity | split; [reflexivity|]].
  intros p. cbn. rewrite in_app_iff, filter_In. tauto.
Qed.

Lemma start_nonempty (a : t) :
  input_list a <> [] ->
  start_transcribe a
  = {| input_list := input_list a; outdir_var := outdir_var a;
       status_var := Transcribing; transcribe_btn := "disabled";
       posted := posted a ++ [LineQueued (List.length (input_list a))];
       worker := Worker.submit_all (input_list a) (worker a);
       watchers := S (watchers a) |}.
Proof.
  intros Hl. unfold start_transcribe.
  destruct (input_list a) as [|x r] eqn:E; [congruence|].
  cbn [List.length Nat.eqb]. rewrite submit_fold, <- E.
  replace (S (List.length r)) with (List.length (input_list a))
    by (rewrite E; reflexivity).
  rewrite nth_seq. cbn. reflexivity.
Qed.

(** X8: Transcribe on an empty list only posts the hint.  On a non-empty
    list it puts every listed path on the queue, behind what is there and
    in list order, raises the counter by their number, disables the button
    and starts one watcher; the list itself stays as it is. *)
Theorem start_transcribe_queues_list (a : t) :
  (input_list a = [] -> start_transcribe a = on_update_safe LineInfo a)
  /\ (input_list a <> [] ->
      let a' := start_transcribe a in
      Queue.items (Worker.in_q (worker a'))
      = Queue.items (Worker.in_q (worker a)) ++ input_list a
      /\ Queue.unfinished_tasks (Worker.in_q (worker a'))
         = (Queue.unfinished_tasks (Worker.in_q (worker a))
            + Z.of_nat (List.length (input_list a)))%Z
      /\ input_list a' = input_list a
      /\ transcribe_btn a' = "disabled"
      /\ status_var a' = Transcribing
      /\ watchers a' = S (watchers a)
      /\ posted a' = posted a ++ [LineQueued (List.length (input_list a))]).
Proof.
  split.
  - intros E. unfold start_transcribe. now rewrite E.
  - intros Hl a'. subst a'. rewrite (start_nonempty a Hl). cbn.
    rewrite submit_all_queue. cbn. repeat split; reflexivity.
Qed.

Section Round.
Context `{OsPath}.
Variable env : Worker.Env.

Lemma worker_turns_run_loop (n : nat) :
  forall a : t,
    worker_turns env n a
    = set_worker
        (Worker.run_loop (with_outdir env (outdir_var a)) n (worker a)) a.
Proof.
  induction n as [|n IH]; intros a; cbn.
  - now destruct a.
  - rewrite IH. reflexivity.
Qed.

(** X9: a whole round.  With an idle, consistent worker that has or can load
    the model, pressing Transcribe on a non-empty list and letting the
    worker run: the watcher stays blocked while fewer turns than listed
    files have passed; after as many turns as files it gets through, posts
    the closing line and puts the button and the status back.  Every listed
    file got one terminal message, and the list still holds the same
    files. *)
Theorem transcribe_round (a : t) :
  input_list a <> [] ->
  WorkerMore.consistent (worker a) ->
  Queue.items (Worker.in_q (worker a)) = [] ->
  WorkerMore.can_load (with_outdir env (outdir_var a)) (worker a) ->
  let k := List.length (input_list a) in
  let a1 := start_transcribe a in
  (forall n, n < k -> _watch_queue (worker_turns env n a1) = None)
  /\ exists a2,
       _watch_queue (worker_turns env k a1) = Some a2
       /\ transcribe_btn a2 = "normal"
       /\ status_var a2 = Ready
       /\ posted a2 = posted a ++ [LineQueued k; LineAllDone]
       /\ watchers a2 = watchers a
       /\ input_list a2 = input_list a
       /\ Queue.items (Worker.in_q (worker a2)) = []
       /\ exists msgs,
            List.length msgs = k
            /\ forallb Worker.terminal msgs = true
            /\ Worker.terminals (worker a2)
               = Worker.terminals (worker a) ++ msgs.
Proof.
  intros Hl (Hrun & Hstop & Hcnt) Hidle Hload k a1. subst k a1.
  rewrite (start_nonempty a Hl).
  set (l := input_list a) in *.
  set (env' := with_outdir env (outdir_var a)) in *.
  set (w1 := Worker.submit_all l (worker a)).
  assert (Hi1 : Queue.items (Worker.in_q w1) = l).
  { unfold w1. rewrite submit_all_queue. cbn. now rewrite Hidle. }
  assert (Hc1 : WorkerMore.consistent w1).
  { unfold w1. rewrite submit_all_queue. unfold WorkerMore.consistent. cbn.
    rewrite Hidle, Hcnt, Hidle. cbn. auto. }
  assert (Hl1 : WorkerMore.can_load env' w1).
  { unfold w1. rewrite submit_all_queue. exact Hload. }
  split.
  - intros n Hn. rewrite worker_turns_run_loop. cbn. fold env'.
    assert (Hn' : n <= List.length (Queue.items (Worker.in_q w1)))
      by (rewrite Hi1; lia).
    destruct (WorkerMore.run_loop_batch env' n w1 Hc1 Hl1 Hn')
      as ((_ & _ & Hcn) & _ & Hin & _).
    unfold _watch_queue, Worker.join_returns, Queue.join_returns. cbn.
    fold w1. rewrite Hcn, Hin, Hi1, length_skipn.
    destruct (Z.eqb_spec (Z.of_nat (List.length l - n)) 0); [lia | reflexivity].
  - rewrite worker_turns_run_loop. cbn. fold env' w1.
    assert (Hk : List.length l <= List.length (Queue.items (Worker.in_q w1)))
      by (rewrite Hi1; lia).
    destruct (WorkerMore.run_loop_batch env' _ w1 Hc1 Hl1 Hk)
      as ((_ & _ & Hcn) & _ & Hin & msgs & Hlen & Hall & Hterm).
    rewrite Hi1, skipn_all in Hin.
    unfold _watch_queue, Worker.join_returns, Queue.join_returns. cbn.
    rewrite Hcn, Hin. cbn. eexists. split; [reflexivity|]. cbn.
    rewrite <- app_assoc. repeat split; auto.
    exists msgs. repeat split; auto. rewrite Hterm. unfold w1.
    rewrite submit_all_queue. reflexivity.
Qed.

End Round.

End AppMore.

(** * Further properties of the script *)

Module CliMore.
Import PyStr Cli CliFacts.

#[local] Arguments strip : simpl never.
#[local] Arguments safe_stem : simpl never.
#[local] Arguments transcript_text : simpl never.
#[local] Arguments String.append : simpl never.
#[local] Arguments Nat.ltb : simpl never.
#[local] Arguments Nat.leb : simpl never.
#[local] Arguments nth : simpl never.

Ltac run_cli :=
  unfold run, main, pick_output_dir, ensure_ffmpeg, print, write_file,
    try_except, bind, gets, modify, check, call, ret, raise, sys_exit in *;
  cbn in *.

Ltac split_match :=
  match goal with
  | |- context [match ?x with _ => _ end] =>
      lazymatch x with
      | context [match _ with _ => _ end] => fail
      | _ => destruct x eqn:?; cbn in *
      end
  end.

Section More.
Context `{OsPath}.
Variable env : Env.

(** X10: [pick_output_dir] always returns, and neither prints nor writes.
    A second argument that is not blank wins, passed to [abspath] as it was
    typed, and the dialog's answer is then ignored; otherwise the dialog's
    folder is taken, and the default when the dialog is cancelled or
    raises. *)
Theorem pick_output_dir_total (default_dir : string) (w : t) :
  pick_output_dir env default_dir w = (Normal (picked env default_dir), w)
  /\ ((3 <=? List.length (argv env))%nat && truthy (strip (arg env 2)) = true ->
      picked env default_dir = abspath env (arg env 2))
  /\ ((3 <=? List.length (argv env))%nat && truthy (strip (arg env 2)) = false ->
      (forall e, askdirectory env default_dir = inl e ->
         picked env default_dir = default_dir)
      /\ (askdirectory env default_dir = inr "" ->
          picked env default_dir = default_dir)
      /\ (forall d, askdirectory env default_dir = inr d -> truthy d = true ->
          picked env default_dir = d)).
Proof.
  unfold picked. split; [|split].
  - run_cli. repeat split_match; try discriminate; congruence.
  - intros ->. reflexivity.
  - intros ->. repeat split.
    + intros e ->. reflexivity.
    + intros ->. reflexivity.
    + intros d -> ->. reflexivity.
Qed.


(** X12: the order of the checks.  Without a path argument the script
    prints the usage and the tip and exits with 1; with a path that does
    not exist it prints that and exits with 1; with the path there and no
    ffmpeg it raises, having printed nothing, whether or not whisper could
    be imported. *)
Theorem checks_in_order :
  ((List.length (argv env) <? 2)%nat = true ->
   run env = (ExitCode 1, {| stdout := [usage; tip]; files := [] |}))
  /\ ((List.length (argv env) <? 2)%nat = false ->
      path_exists env (media_path env) = false ->
      run env
      = (ExitCode 1,
         {| stdout := [("File not found: " ++ media_path env)%string];
            files := [] |}))
  /\ (preflight_fails env = false -> which_ffmpeg env = false ->
      run env = (Uncaught ffmpeg_missing, start)).
Proof.
  unfold preflight_fails, media_path. split; [|split].
  - intros Ha. run_cli. rewrite Ha. reflexivity.
  - intros Ha He. run_cli. rewrite Ha. cbn. rewrite He. reflexivity.
  - intros Hp Hf. apply orb_false_elim in Hp as [Ha He].
    apply negb_false_iff in He.
    run_cli. rewrite Ha. cbn. rewrite He. cbn. rewrite Hf. reflexivity.
Qed.

(** X13: once past the checks, an exception from [load_model], from
    [makedirs] or from opening the file leaves [main] uncaught, and no file
    is written. *)
Theorem late_failures_propagate (e : exn) :
  preflight_fails env = false -> which_ffmpeg env = true ->
  import_whisper env = None ->
  (load_model env (model_name env) = inl e
   \/ (exists m,
         load_model env (model_name env) = inr m
         /\ (makedirs env (picked env (dirname (media_path env))) = Some e
             \/ (makedirs env (picked env (dirname (media_path env))) = None
                 /\ exists r, transcribe env m (media_path env) = inr r
                      /\ open_write env (txt_path env) = Some e)))) ->
  fst (run env) = Uncaught e /\ files (snd (run env)) = [].
Proof.
  unfold preflight_fails, txt_path, model_name, picked, media_path.
  intros Hpre Hff Himp Hfail.
  apply orb_false_elim in Hpre as [Hargs Hex].
  apply negb_false_iff in Hex.
  run_cli. rewrite Hargs. cbn. rewrite Hex. cbn. rewrite Hff. cbn.
  rewrite Himp. cbn.
  destruct Hfail as [Hload | (m & Hload & [Hmk | (Hmk & r & Htr & Hop)])];
    rewrite Hload; cbn.
  - auto.
  - repeat (split_match; rewrite ?Hmk in *; cbn in * ); try discriminate; auto.
  - repeat (split_match; rewrite ?Hmk, ?Htr, ?Hop in *; cbn in * );
      try discriminate; auto.
Qed.

End More.
End CliMore.

(** * Further properties of the text, the splitter and the file name *)

Module TextMore.
Import PyStr PyStrFacts.

Lemma lstrip_spaces (a s : string) :
  all_chars isspace a = true -> lstrip (a ++ s) = lstrip s.
Proof.
  induction a as [|c r IH]; cbn; [reflexivity|].
  intros Ha. apply andb_prop in Ha as [Hc Hr]. rewrite Hc. auto.
Qed.

Lemma rstrip_spaces (s : string) : all_chars isspace s = true -> rstrip s = "".
Proof.
  induction s as [|c r IH]; cbn; [reflexivity|].
  intros Hs. apply andb_prop in Hs as [Hc Hr]. now rewrite (IH Hr), Hc.
Qed.

Lemma rstrip_body (b c : string) :
  b <> "" ->
  (forall x, last_char b = Some x -> isspace x = false) ->
  all_chars isspace c = true ->
  rstrip (b ++ c) = b.
Proof.
  intros Hb Hlast Hc. induction b as [|x b' IH]; [congruence|].
  cbn [String.append rstrip]. destruct b' as [|y b''].
  - cbn [String.append]. rewrite (rstrip_spaces c Hc). cbn.
    now rewrite (Hlast x eq_refl).
  - rewrite IH; [now rewrite andb_false_r | discriminate | exact Hlast].
Qed.

(** X14: what [strip] does to a transcript.  If the result's text is some
    whitespace, then a body that neither starts nor ends with whitespace,
    then whitespace again, the file holds the body, whatever is inside it,
    and a newline; a text of whitespace only gives a file with just the
    newline. *)
Theorem transcript_keeps_the_body (a b c : string) :
  all_chars isspace a = true ->
  all_chars isspace c = true ->
  (forall x, first_char b = Some x -> isspace x = false) ->
  (forall x, last_char b = Some x -> isspace x = false) ->
  transcript_text {| text := Some (a ++ b ++ c)%string |} = (b ++ nl)%string
  /\ transcript_text {| text := Some (a ++ c)%string |} = nl.
Proof.
  intros Ha Hc Hfirst Hlast. unfold transcript_text, strip. cbn [text].
  assert (Hl : forall s, all_chars isspace s = true -> lstrip s = "").
  { induction s as [|y r IH]; cbn; [reflexivity|].
    intros Hs. apply andb_prop in Hs as [Hy Hr]. rewrite Hy. auto. }
  split.
  - rewrite (lstrip_spaces a (b ++ c) Ha). destruct b as [|x b'].
    + cbn [String.append]. now rewrite (Hl c Hc).
    + cbn [String.append lstrip]. rewrite (Hfirst x eq_refl).
      change (String x (b' ++ c)%string) with ((String x b') ++ c)%string.
      rewrite rstrip_body; [reflexivity | discriminate | exact Hlast | exact Hc].
  - rewrite (lstrip_spaces a c Ha), (Hl c Hc). reflexivity.
Qed.

End TextMore.

Module DndMore.
Import PyStr PyStrFacts Dnd DndFacts.

(** X15: a bare word that runs into an opening brace is lost: the splitter
    empties its buffer at the brace, so the data gives the same paths as
    without the word. *)
Theorem word_before_brace_is_dropped (ps : list piece) (w rest : string) :
  forallb wf_piece ps = true ->
  all_chars word_char w = true ->
  _split_dnd_paths (render ps ++ w ++ "{" ++ rest)
  = _split_dnd_paths (render ps ++ "{" ++ rest).
Proof.
  intros Hps Hw. unfold _split_dnd_paths, scan0.
  rewrite !scan_all_app, (scan_render _ _ Hps), (scan_word_body _ _ _ Hw).
  reflexivity.
Qed.

(** X16: a brace group that is never closed still gives its content as the
    last path. *)
Theorem unclosed_group_is_kept (ps : list piece) (g : string) :
  forallb wf_piece ps = true ->
  all_chars no_brace g = true ->
  _split_dnd_paths (render ps ++ "{" ++ g) = trimmed (contents ps ++ [g]).
Proof.
  intros Hps Hg. unfold _split_dnd_paths, scan0.
  rewrite scan_all_app, (scan_render _ _ Hps). cbn [String.append scan_all].
  unfold feed at 1. cbn. rewrite (scan_group_body _ _ _ Hg). unfold flush. cbn.
  destruct g as [|c r]; cbn; [|reflexivity].
  rewrite trimmed_app. cbn. now rewrite app_nil_r.
Qed.

End DndMore.

Module PathMore.
Import PyStr PyStrFacts PosixPath.

Definition not_sep (c : ascii) : bool := negb (Ascii.eqb c "/").

Lemma basename_no_sep (p : string) :
  all_chars not_sep (posix_basename p) = true.
Proof.
  unfold posix_basename.
  induction p as [|c r IH]; cbn; [reflexivity|].
  destruct (split_at_sep r) as [h t]. cbn in IH.
  destruct (is_empty h); [|exact IH].
  destruct (Ascii.eqb c "/") eqn:E; cbn; [exact IH|].
  unfold not_sep at 1. now rewrite E, IH.
Qed.

Lemma substring_all (P : ascii -> bool) (s : string) :
  forall n m, all_chars P s = true -> all_chars P (substring n m s) = true.
Proof.
  induction s as [|c r IH]; intros n m Hs.
  - destruct n, m; reflexivity.
  - cbn in Hs. apply andb_prop in Hs as [Hc Hr].
    destruct n as [|n]; [destruct m as [|m]|]; cbn; auto.
    now rewrite Hc, (IH 0 m Hr).
Qed.

Lemma splitext_root_all (P : ascii -> bool) (s : string) :
  all_chars P s = true -> all_chars P (fst (posix_splitext s)) = true.
Proof.
  intros Hs. unfold posix_splitext, slice.
  destruct (_ && _); cbn; [now apply substring_all | exact Hs].
Qed.

Lemma no_sep_start (s : string) :
  all_chars not_sep s = true -> starts_with "/" s = false.
Proof.
  destruct s as [|c r]; [reflexivity|].
  cbn [all_chars]. intros Hs. apply andb_prop in Hs as [Hc _].
  unfold not_sep in Hc. apply negb_true_iff in Hc.
  unfold starts_with. cbn [first_char]. now rewrite Ascii.eqb_sym.
Qed.

(** X17: on a POSIX machine the name [safe_stem] builds holds no slash,
    whatever the path, as long as the time stamp holds none; so the
    transcript is a file directly in the output folder: the folder, a slash
    unless the folder already ends with one, the stem, [_transcript_], the
    time stamp and [.txt]. *)
Theorem transcript_lands_in_outdir (ts path outdir : string) :
  all_chars not_sep ts = true ->
  outdir <> "" ->
  let stem := fst (posix_splitext (posix_basename path)) in
  let name := (stem ++ "_transcript_" ++ ts)%string in
  safe_stem ts path = name
  /\ all_chars not_sep name = true
  /\ (ends_with "/" outdir = false ->
      (join outdir (safe_stem ts path) ++ ".txt")%string
      = (outdir ++ "/" ++ name ++ ".txt")%string)
  /\ (ends_with "/" outdir = true ->
      (join outdir (safe_stem ts path) ++ ".txt")%string
      = (outdir ++ name ++ ".txt")%string).
Proof.
  intros Hts Hout stem name.
  assert (Hname : all_chars not_sep name = true).
  { unfold name, stem. rewrite !all_chars_app, Hts.
    rewrite (splitext_root_all _ _ (basename_no_sep path)). reflexivity. }
  split; [reflexivity | split; [exact Hname|]].
  unfold safe_stem. cbn [basename splitext join posix]. fold stem. fold name.
  unfold posix_join. rewrite (no_sep_start _ Hname).
  destruct outdir as [|c r]; [congruence|]. cbn [is_empty orb].
  split; intros ->; now rewrite !append_assoc.
Qed.

End PathMore.

(** ** More scenarios on a POSIX machine *)

Module MoreScenarios.
Import PyStr PosixPath Scenarios.

(** The studio without ffprobe. *)
Definition no_ffprobe : Worker.Env := {|
  Worker.which_ffmpeg := true;
  Worker.which_ffprobe := false;
  Worker.environ := Worker.environ studio;
  Worker.path_exists := Worker.path_exists studio;
  Worker.import_deps := Worker.import_deps studio;
  Worker.cuda_available := Worker.cuda_available studio;
  Worker.load_model := Worker.load_model studio;
  Worker.outdir_var := Worker.outdir_var studio;
  Worker.makedirs := Worker.makedirs studio;
  Worker.now := Worker.now studio;
  Worker.transcribe := Worker.transcribe studio;
  Worker.open_write := Worker.open_write studio;
  Worker.write := Worker.write studio;
  Worker.elapsed := Worker.elapsed studio
|}.

Definition out_of_memory : exn := "CUDA out of memory".
Definition bad_checksum : exn := "SHA256 checksum does not match".

(** The studio with a model that raises on every file. *)
Definition deaf : Worker.Env := {|
  Worker.which_ffmpeg := true;
  Worker.which_ffprobe := true;
  Worker.environ := Worker.environ studio;
  Worker.path_exists := Worker.path_exists studio;
  Worker.import_deps := Worker.import_deps studio;
  Worker.cuda_available := Worker.cuda_available studio;
  Worker.load_model := Worker.load_model studio;
  Worker.outdir_var := Worker.outdir_var studio;
  Worker.makedirs := Worker.makedirs studio;
  Worker.now := Worker.now studio;
  Worker.transcribe := fun _ _ _ => inl out_of_memory;
  Worker.open_write := Worker.open_write studio;
  Worker.write := Worker.write studio;
  Worker.elapsed := Worker.elapsed studio
|}.

(** The studio with a model file that cannot be loaded. *)
Definition unloadable : Worker.Env := {|
  Worker.which_ffmpeg := true;
  Worker.which_ffprobe := true;
  Worker.environ := Worker.environ studio;
  Worker.path_exists := Worker.path_exists studio;
  Worker.import_deps := Worker.import_deps studio;
  Worker.cuda_available := fun _ => true;
  Worker.load_model := fun _ _ _ => inl bad_checksum;
  Worker.outdir_var := Worker.outdir_var studio;
  Worker.makedirs := Worker.makedirs studio;
  Worker.now := Worker.now studio;
  Worker.transcribe := Worker.transcribe studio;
  Worker.open_write := Worker.open_write studio;
  Worker.write := Worker.write studio;
  Worker.elapsed := Worker.elapsed studio
|}.

(** A worker that already holds the model. *)
Definition warm (paths : list string) : Worker.t :=
  Worker.set_model (Some (Handle 0)) (batch paths).

Definition mixed : list string := [a_mp3; "missing.wav"; b_wav].

Lemma studio_loadable : WorkerMore.loadable studio.
Proof. split; intros; [reflexivity | now exists (Handle 0)]. Defined.

Lemma mixed_consistent : WorkerMore.consistent (batch mixed).
Proof. repeat split. Defined.

Lemma no_ffmpeg_no_work_witness :
  Worker.thread (Worker.run no_ffprobe 5 (batch mixed)) = Worker.Returned
  /\ Queue.items (Worker.in_q (Worker.run no_ffprobe 5 (batch mixed))) = mixed
  /\ Worker.join_returns (Worker.run no_ffprobe 5 (batch mixed)) = false.
Proof.
  destruct (WorkerMore.no_ffmpeg_no_work no_ffprobe 5 (batch mixed) eq_refl)
    as (E & Hq & _ & Hj).
  split; [rewrite E; reflexivity|].
  split; [rewrite Hq; reflexivity | rewrite Hj; reflexivity].
Defined.

Lemma stop_ends_loop_witness :
  Worker.thread (Worker.run_loop studio 3 (Worker.stop (batch mixed)))
  = Worker.Returned
  /\ Queue.items
       (Worker.in_q (Worker.run_loop studio 3 (Worker.stop (batch mixed))))
     = mixed.
Proof.
  destruct (WorkerMore.stop_ends_loop studio 2 (batch mixed) eq_refl)
    as (E & Hq & _).
  split; [rewrite E; reflexivity | rewrite Hq; reflexivity].
Defined.

Lemma item_failure_is_contained_witness :
  Worker.terminals (Worker.iteration deaf (warm [a_mp3; b_wav]))
  = [Worker.MsgError out_of_memory]
  /\ Worker.files (Worker.iteration deaf (warm [a_mp3; b_wav])) = []
  /\ Worker.thread (Worker.iteration deaf (warm [a_mp3; b_wav]))
     = Worker.Running.
Proof.
  destruct (WorkerMore.item_failure_is_contained deaf (warm [a_mp3; b_wav])
              a_mp3 (queue_of [b_wav] 2) (Handle 0) out_of_memory
              eq_refl eq_refl eq_refl eq_refl eq_refl eq_refl
              (or_intror (or_introl (conj eq_refl eq_refl))))
    as (Ht & Hf & _ & _ & Hr & _).
  exact (conj Ht (conj Hf Hr)).
Defined.

Lemma load_failure_reported_as_missing_deps_witness :
  Worker.updates (Worker.iteration unloadable (batch [a_mp3; b_wav]))
  = [Worker.MsgLoading "base" "cuda"; Worker.MsgMissingDeps;
     Worker.MsgText bad_checksum]
  /\ Worker._model (Worker.iteration unloadable (batch [a_mp3; b_wav])) = None
  /\ Worker.thread (Worker.iteration unloadable (batch [a_mp3; b_wav]))
     = Worker.Running
  /\ Worker.in_q (Worker.iteration unloadable (batch [a_mp3; b_wav]))
     = queue_of [b_wav] 0.
Proof.
  destruct (WorkerMore.load_failure_reported_as_missing_deps unloadable
              (batch [a_mp3; b_wav]) a_mp3 (queue_of [b_wav] 2) bad_checksum
              eq_refl eq_refl eq_refl eq_refl eq_refl eq_refl eq_refl)
    as (Hu & Hm & _ & _ & Ht & _).
  split; [exact Hu|]. split; [exact Hm|]. split; [exact Ht|]. reflexivity.
Defined.

Lemma batch_gets_one_terminal_each_witness :
  Queue.items (Worker.in_q (Worker.run_loop studio 2 (batch mixed))) = [b_wav]
  /\ exists msgs,
       List.length msgs = 2
       /\ Worker.terminals (Worker.run_loop studio 2 (batch mixed)) = msgs.
Proof.
  destruct (WorkerMore.batch_gets_one_terminal_each studio 2 (batch mixed)
              mixed_consistent (or_intror studio_loadable)
              (le_S _ _ (le_n 2)))
    as (_ & Hi & msgs & Hlen & _ & Ht).
  split; [exact Hi|]. exists msgs. split; [exact Hlen | exact Ht].
Defined.

Lemma batch_drains_and_joins_witness :
  Worker.join_returns (Worker.run_loop studio 2 (batch mixed)) = false
  /\ Worker.join_returns (Worker.run_loop studio 3 (batch mixed)) = true
  /\ Worker.run_loop studio 7 (batch mixed)
     = Worker.run_loop studio 3 (batch mixed).
Proof.
  destruct (WorkerMore.batch_drains_and_joins studio (batch mixed)
              mixed_consistent (or_intror studio_loadable))
    as (Hearly & Hj & _ & _ & Hidle).
  exact (conj (Hearly 2 (le_n 3)) (conj Hj (Hidle 4))).
Defined.

(** A window with two files listed, one of them twice. *)
Definition listed : App.t :=
  App.on_drop (fun p => negb (String.eqb p "missing.wav"))
    "{/media/a.mp3} missing.wav /media/sub/b.wav {/media/a.mp3}" App.init.

Lemma listed_files : App.input_list listed = [a_mp3; b_wav; a_mp3].
Proof. reflexivity. Defined.

Lemma listed_nonempty : App.input_list listed <> [].
Proof. discriminate. Defined.

Lemma start_transcribe_queues_list_witness :
  Queue.items (Worker.in_q (App.worker (App.start_transcribe listed)))
  = [a_mp3; b_wav; a_mp3]
  /\ App.transcribe_btn (App.start_transcribe listed) = "disabled"
  /\ App.input_list (App.start_transcribe listed) = [a_mp3; b_wav; a_mp3]
  /\ App.start_transcribe App.init = App.on_update_safe App.LineInfo App.init.
Proof.
  destruct (AppMore.start_transcribe_queues_list listed) as [_ Hs].
  destruct (Hs listed_nonempty) as (Hi & _ & Hl & Hb & _).
  destruct (AppMore.start_transcribe_queues_list App.init) as [He _].
  exact (conj Hi (conj Hb (conj Hl (He eq_refl)))).
Defined.

Lemma transcribe_round_witness :
  App._watch_queue (App.worker_turns studio 2 (App.start_transcribe listed))
  = None
  /\ exists a2,
       App._watch_queue
         (App.worker_turns studio 3 (App.start_transcribe listed)) = Some a2
       /\ App.transcribe_btn a2 = "normal"
       /\ App.posted a2 = [App.LineQueued 3; App.LineAllDone].
Proof.
  destruct (AppMore.transcribe_round studio listed listed_nonempty
              (conj eq_refl (conj eq_refl eq_refl)) eq_refl
              (or_intror (conj (fun _ => eq_refl)
                            (fun _ _ _ => ex_intro _ (Handle 0) eq_refl))))
    as (Hearly & a2 & Hw & Hb & _ & Hp & _).
  split; [exact (Hearly 2 (le_n 3))|].
  exists a2. exact (conj Hw (conj Hb Hp)).
Defined.

(** The script with a folder argument typed with a trailing space. *)
Definition with_folder : Cli.Env := {|
  Cli.argv := ["transcribe.py"; "/media/a.mp4"; "/out "];
  Cli.abspath := fun p => p;
  Cli.path_exists := fun _ => true;
  Cli.which_ffmpeg := true;
  Cli.import_whisper := None;
  Cli.environ := fun _ => None;
  Cli.load_model := fun _ => inr (Handle 0);
  Cli.askdirectory := fun _ => inr "/picked";
  Cli.makedirs := fun _ => None;
  Cli.transcribe := fun _ _ => inr heard;
  Cli.now := stamp;
  Cli.open_write := fun _ => None;
  Cli.write := fun _ _ => None
|}.

(** The script without arguments. *)
Definition no_args : Cli.Env := {|
  Cli.argv := ["transcribe.py"];
  Cli.abspath := fun p => p;
  Cli.path_exists := fun _ => true;
  Cli.which_ffmpeg := true;
  Cli.import_whisper := None;
  Cli.environ := fun _ => None;
  Cli.load_model := fun _ => inr (Handle 0);
  Cli.askdirectory := fun _ => inr "";
  Cli.makedirs := fun _ => None;
  Cli.transcribe := fun _ _ => inr heard;
  Cli.now := stamp;
  Cli.open_write := fun _ => None;
  Cli.write := fun _ _ => None
|}.

(** The script on a disk that is full. *)
Definition disk_full : Cli.Env := {|
  Cli.argv := ["transcribe.py"; "/media/a.mp4"; "/out"];
  Cli.abspath := fun p => p;
  Cli.path_exists := fun _ => true;
  Cli.which_ffmpeg := true;
  Cli.import_whisper := None;
  Cli.environ := fun _ => None;
  Cli.load_model := fun _ => inr (Handle 0);
  Cli.askdirectory := fun _ => inr "";
  Cli.makedirs := fun _ => None;
  Cli.transcribe := fun _ _ => inr heard;
  Cli.now := stamp;
  Cli.open_write := fun _ => Some "No space left on device";
  Cli.write := fun _ _ => None
|}.

Lemma pick_output_dir_total_witness :
  Cli.pick_output_dir with_folder "/media" Cli.start
  = (Normal "/out ", Cli.start).
Proof.
  destruct (CliMore.pick_output_dir_total with_folder "/media" Cli.start)
    as (Hp & Harg & _).
  rewrite Hp, (Harg eq_refl). reflexivity.
Defined.


Lemma checks_in_order_witness :
  Cli.run no_args
  = (Cli.ExitCode 1, {| Cli.stdout := [Cli.usage; Cli.tip]; Cli.files := [] |}).
Proof. exact (proj1 (CliMore.checks_in_order no_args) eq_refl). Defined.

Lemma late_failures_propagate_witness :
  fst (Cli.run disk_full) = Cli.Uncaught "No space left on device"
  /\ Cli.files (snd (Cli.run disk_full)) = [].
Proof.
  exact (CliMore.late_failures_propagate disk_full "No space left on device"
           eq_refl eq_refl eq_refl
           (or_intror
              (ex_intro _ (Handle 0)
                 (conj eq_refl
                    (or_intror
                       (conj eq_refl
                          (ex_intro _ heard (conj eq_refl eq_refl)))))))).
Defined.

Lemma transcript_keeps_the_body_witness :
  transcript_text {| text := Some "  hello world " |}
  = ("hello world" ++ nl)%string.
Proof.
  exact (proj1 (TextMore.transcript_keeps_the_body "  " "hello world" " "
                  eq_refl eq_refl
                  (fun x E => match E in _ = y return
                                match y with Some c => isspace c = false
                                           | None => True end
                              with eq_refl => eq_refl end)
                  (fun x E => match E in _ = y return
                                match y with Some c => isspace c = false
                                           | None => True end
                              with eq_refl => eq_refl end))).
Defined.

Lemma word_before_brace_is_dropped_witness :
  Dnd._split_dnd_paths "C:/clip{1}.mp4" = ["1"; ".mp4"].
Proof.
  exact (eq_trans
           (DndMore.word_before_brace_is_dropped [] "C:/clip" "1}.mp4"
              eq_refl eq_refl)
           eq_refl).
Defined.

Lemma unclosed_group_is_kept_witness :
  Dnd._split_dnd_paths "a.mp3 {C:/my dir/b.wav" = ["a.mp3"; "C:/my dir/b.wav"].
Proof.
  exact (DndMore.unclosed_group_is_kept [Dnd.Word "a.mp3"] "C:/my dir/b.wav"
           eq_refl eq_refl).
Defined.

Lemma transcript_lands_in_outdir_witness :
  (join "/out" (safe_stem stamp "/media/sub/b.v2.wav") ++ ".txt")%string
  = "/out/b.v2_transcript_20240101_120000.txt".
Proof.
  destruct (PathMore.transcript_lands_in_outdir stamp "/media/sub/b.v2.wav"
              "/out" eq_refl ltac:(discriminate)) as (_ & _ & Hj & _).
  rewrite (Hj eq_refl). reflexivity.
Defined.

End MoreScenarios.
